(** * easy-no-password: the token handler (lib/token_handler.js)

    A shallow embedding of the [EasyNoPassword] class: the constructor,
    [createToken], [isValid], [_encrypt], [_decrypt] and [_createKey],
    over models of the Node.js pieces the class calls ([Buffer], the
    [crypto] ciphers and key derivation, [Date]) and of [lib/base62.js]. *)

From Stdlib Require Import NArith ZArith QArith Qround List String Ascii Bool Lia.
From Stdlib Require Import Strings.Byte.
From Equations Require Import Equations.
Import ListNotations.

Local Open Scope Z_scope.

(** ** JavaScript numbers

    Every number the class handles is an integer-valued double, except the
    quotient [timestamp / UINT32_CAPACITY], which is kept exact in [Q]
    (dividing a double by a power of two only changes its exponent).
    Integer doubles are modelled in [Z]; [fl] rounds an exact integer result
    to the nearest double (53-bit significand, ties to even). *)
Module Js.

Definition UINT32_CAPACITY : Z := 0xffffffff + 1.

Definition fl (x : Z) : Z :=
  let a := Z.abs x in
  let e := Z.log2 a - 52 in
  if e <=? 0 then x
  else
    let q := a / 2 ^ e in
    let r := a mod 2 ^ e in
    let half := 2 ^ (e - 1) in
    let q' := if r <? half then q
              else if half <? r then q + 1
              else if Z.even q then q else q + 1 in
    Z.sgn x * (q' * 2 ^ e).

Definition add (a b : Z) : Z := fl (a + b).
Definition sub (a b : Z) : Z := fl (a - b).
Definition mul (a b : Z) : Z := fl (a * b).

(** [a / b] for integer doubles, exact. *)
Definition div (a b : Z) : Q := inject_Z a / inject_Z b.

(** [a % b]: the remainder takes the sign of the dividend. *)
Definition rem (a b : Z) : Z := Z.rem a b.

(** The largest magnitude of a time value ([Date.prototype.getTime]). *)
Definition MAX_TIME : Z := 8640000000000000.

Definition time_value (t : Z) : Prop := - MAX_TIME <= t <= MAX_TIME.

(** The values passed for the optional [maxTokenAge] argument: the
    argument left out, [null], [NaN], or an integer number. *)
Inductive arg : Type :=
| Undefined
| Null
| NaN
| Num (n : Z).

(** ToBoolean. *)
Definition truthy (v : arg) : bool :=
  match v with
  | Undefined | Null | NaN => false
  | Num n => negb (n =? 0)
  end.

End Js.

(** ** Outcomes of a call

    [Returned a]: the call returns [a], or hands [a] to its callback with no
    error.  [Thrown e]: an exception leaves the call, or a step of its
    [async.waterfall], and the callback is not reached. *)

Inductive error : Type :=
| SecretRequired        (* "You must provide a secret!" *)
| IdentifierRequired    (* "An identifier for the user is required." *)
| OutOfRange            (* ERR_OUT_OF_RANGE of Buffer reads and writes *)
| BufferOutOfBounds     (* ERR_BUFFER_OUT_OF_BOUNDS: the buffer is too short *)
| WrongFinalBlockLength (* final() on data that is no whole number of blocks *)
| AssertionError.       (* assert.strictEqual *)

Inductive outcome (A : Type) : Type :=
| Returned (a : A)
| Thrown (e : error).
Arguments Returned {A} a.
Arguments Thrown {A} e.

(** ** Node.js buffers *)
Module Buffer.

Definition t := list byte.

Definition byte_of_Z (z : Z) : byte :=
  match Byte.of_N (Z.to_N (z mod 256)) with
  | Some b => b
  | None => x00
  end.

Definition Z_of_byte (b : byte) : Z := Z.of_N (Byte.to_N b).

Definition byte_xor (a b : byte) : byte :=
  byte_of_Z (Z.lxor (Z_of_byte a) (Z_of_byte b)).

(** [Buffer.alloc(n)] *)
Definition alloc (n : nat) : t := repeat x00 n.

(** [Buffer.from(string, "utf-8")]: a string is modelled by its UTF-8
    bytes. *)
Definition from (s : string) : t := list_byte_of_string s.

Definition be32 (v : Z) : list byte :=
  [byte_of_Z (Z.shiftr v 24); byte_of_Z (Z.shiftr v 16);
   byte_of_Z (Z.shiftr v 8); byte_of_Z v].

(** [buf.writeUInt32BE(value, offset)], as in Node.js 10 and later (the
    third argument that the class passes is ignored there): a value outside
    0 .. 2^32-1 or an offset past the end is refused with ERR_OUT_OF_RANGE;
    the fraction of an accepted value is dropped by the byte stores.  The
    class only writes at offsets 0 and 4 of a buffer of 8 bytes, so the
    refusal of the offset is never reached. *)
Definition writeUInt32BE (buf : t) (value : Q) (offset : nat) : outcome t :=
  if Qle_bool 0 value && Qle_bool value (inject_Z 0xffffffff)
     && (offset + 4 <=? List.length buf)%nat
  then Returned (firstn offset buf ++ be32 (Qfloor value)
                   ++ skipn (offset + 4) buf)
  else Thrown OutOfRange.

(** The error of a 4-byte access that does not fit: a buffer of less than
    4 bytes is out of bounds, otherwise the offset is out of range. *)
Definition bounds_error (buf : t) : error :=
  if (List.length buf <? 4)%nat then BufferOutOfBounds else OutOfRange.

(** [buf.readUInt32BE(offset)] *)
Definition readUInt32BE (buf : t) (offset : nat) : outcome Z :=
  match skipn offset buf with
  | b0 :: b1 :: b2 :: b3 :: _ =>
      Returned (Z_of_byte b0 * 2 ^ 24 + Z_of_byte b1 * 2 ^ 16
                + Z_of_byte b2 * 2 ^ 8 + Z_of_byte b3)
  | _ => Thrown (bounds_error buf)
  end.

End Buffer.

(** ** Base-62 text encoding of binary data

    Modelled from the spec: lib/base62.js, which [token_handler.js] requires,
    is not among the sources.  The codec converts between a byte sequence
    and a string of base-62 digits by big-integer arithmetic, whatever the
    number of bytes. *)
Module Base62.

(** The number of bits of a positive number: what decreases in the loop
    below. *)
Definition size (n : Z) : nat :=
  if 0 <? n then S (Z.to_nat (Z.log2 n)) else O.

(** The test of the loop. *)
Definition more_digits (b n : Z) : {1 < b /\ 0 < n} + {~ (1 < b /\ 0 < n)} :=
  match Z_lt_dec 1 b, Z_lt_dec 0 n with
  | left Hb, left Hn => left (conj Hb Hn)
  | right Hb, _ => right (fun H => Hb (proj1 H))
  | _, right Hn => right (fun H => Hn (proj2 H))
  end.

(** The digits of [n] in base [b], least significant first, by repeated
    division: [while (n > 0) { emit (n mod b); n = n / b }]. *)
Equations to_radix (b n : Z) : list Z by wf (size n) lt :=
  to_radix b n with more_digits b n := {
    | left more := n mod b :: to_radix b (n / b);
    | right _ := [] }.
Next Obligation.
  assert (Hb : 1 < b) by assumption.
  assert (Hn : 0 < n) by assumption. unfold size.
  destruct (Z.ltb_spec 0 n) as [_|]; [|lia].
  destruct (Z.ltb_spec 0 (n / b)) as [Hq|]; [|lia].
  apply -> Nat.succ_lt_mono.
  assert (Hlog : Z.log2 (n / b) < Z.log2 n).
  { apply Z.log2_lt_pow2; [lia|].
    destruct (Z.log2_spec n Hn) as [Hlo Hhi].
    assert (1 <= Z.log2 n).
    { destruct (Z.eq_dec (Z.log2 n) 0) as [E|]; [|pose proof (Z.log2_nonneg n); lia].
      rewrite E in Hhi. simpl in Hhi.
      assert (n / b = 0) by (apply Z.div_small; lia). lia. }
    apply Z.div_lt_upper_bound; [lia|].
    replace (Z.succ (Z.log2 n)) with (Z.log2 n - 1 + 1 + 1) in Hhi by lia.
    rewrite !Z.pow_add_r in Hhi by lia.
    replace (Z.log2 n) with (Z.log2 n - 1 + 1) at 1 by lia.
    rewrite Z.pow_add_r by lia.
    assert (0 < 2 ^ (Z.log2 n - 1)) by (apply Z.pow_pos_nonneg; lia).
    nia. }
  pose proof (Z.log2_nonneg (n / b)). lia.
Qed.

(** The number a list of digits, most significant first, stands for. *)
Definition of_radix (b : Z) (ds : list Z) : Z :=
  fold_left (fun acc d => acc * b + d) ds 0.

(** The number of leading zero digits. *)
Fixpoint lead0 (ds : list Z) : nat :=
  match ds with
  | 0 :: r => S (lead0 r)
  | _ => O
  end.

(** Digits in base [from] to digits in base [to], most significant first:
    one zero digit for each leading zero digit, then the digits of the
    number the input stands for. *)
Definition recode (from to : Z) (ds : list Z) : list Z :=
  repeat 0 (lead0 ds) ++ rev (to_radix to (of_radix from ds)).

(** The 62 symbols, in the order of their values. *)
Definition CHARS : string :=
  "0123456789ABCDEFGHIJKLMNOPQRSTUVWXYZabcdefghijklmnopqrstuvwxyz".

Definition alphabet : list ascii := list_ascii_of_string CHARS.

Fixpoint index_of (c : ascii) (l : list ascii) : option nat :=
  match l with
  | [] => None
  | x :: r => if Ascii.eqb c x then Some O else option_map S (index_of c r)
  end.

Definition digit_of_char (c : ascii) : option Z :=
  option_map Z.of_nat (index_of c alphabet).

Definition char_of_digit (d : Z) : ascii :=
  nth (Z.to_nat d) alphabet "0"%char.

Fixpoint digits_of_chars (cs : list ascii) : option (list Z) :=
  match cs with
  | [] => Some []
  | c :: r =>
      match digit_of_char c, digits_of_chars r with
      | Some d, Some ds => Some (d :: ds)
      | _, _ => None
      end
  end.

(** Modelled from the spec: [encode] of lib/base62.js, which is not among
    the sources.  The bytes are read as a big-endian unsigned integer, which
    is divided by 62 repeatedly, the digits coming out least significant
    first and being reversed; the digits are written with [0-9A-Za-z].
    The spec leaves the treatment of leading zero bytes to the implementer
    and names leading zero-digit padding that preserves the byte length as
    the natural choice: each leading zero byte is written as one leading
    [0], symmetrically in [decode]. *)
Definition encode (bytes : Buffer.t) : string :=
  string_of_list_ascii
    (map char_of_digit (recode 256 62 (map Buffer.Z_of_byte bytes))).

(** Modelled from the spec: [decode] of lib/base62.js, which is not among
    the sources.  It fails ([None], the spec's [FormatError]) when the
    string has a character outside the 62-symbol alphabet, and is the
    inverse of [encode] otherwise.  The spec fixes the result on those two
    kinds of strings only: the properties below use [decode] on strings with
    a foreign character and on encodings of 8-byte blocks, and on nothing
    else. *)
Definition decode (s : string) : option Buffer.t :=
  match digits_of_chars (list_ascii_of_string s) with
  | Some ds => Some (map Buffer.byte_of_Z (recode 62 256 ds))
  | None => None
  end.

End Base62.

(** ** Calls: the clock, the log of [crypto] operations, exceptions *)

Inductive call : Type :=
| Pbkdf2            (* crypto.pbkdf2 *)
| CreateCipheriv    (* crypto.createCipheriv *)
| CreateDecipheriv. (* crypto.createDecipheriv *)

Record world : Type := World {
  clock : Z;            (* what [new Date().getTime()] reads *)
  calls : list call     (* the crypto operations invoked so far, latest first *)
}.

Definition M (A : Type) : Type := world -> outcome A * world.

Definition ret {A} (a : A) : M A := fun w => (Returned a, w).

Definition throw {A} (e : error) : M A := fun w => (Thrown e, w).

Definition bind {A B} (c : M A) (k : A -> M B) : M B :=
  fun w =>
    match c w with
    | (Returned a, w') => k a w'
    | (Thrown e, w') => (Thrown e, w')
    end.

Definition lift {A} (o : outcome A) : M A := fun w => (o, w).

Definition getTime : M Z := fun w => (Returned (clock w), w).

Definition invoke (c : call) : M unit :=
  fun w => (Returned tt, {| clock := clock w; calls := c :: calls w |}).

Notation "x <- c ;; k" := (bind c (fun x => k))
  (at level 61, c at next level, right associativity).

(** [assert.strictEqual(expected, actual)] on numbers. *)
Definition assert_strictEqual (expected actual : nat) : M unit :=
  if Nat.eqb expected actual then ret tt else throw AssertionError.

(** ** The [crypto] module *)
Module Crypto.

(** What the class takes from the runtime: key derivation, with the
    number of formal parameters of [crypto.pbkdf2] (5 in Node.js v0.10,
    where there is no digest argument, 6 afterwards), and the Blowfish
    block transformations under a key. *)
Record t : Type := {
  pbkdf2_length : nat;
  pbkdf2 : Buffer.t -> Buffer.t -> Z -> nat -> option string -> Buffer.t;
  bf_encrypt : Buffer.t -> Buffer.t -> Buffer.t;
  bf_decrypt : Buffer.t -> Buffer.t -> Buffer.t
}.

Definition xor (a b : Buffer.t) : Buffer.t :=
  map (fun p => Buffer.byte_xor (fst p) (snd p)) (combine a b).

(** [cipher.update(data)] of a "bf" (Blowfish, CBC) cipher with padding
    off: the whole 8-byte blocks of [data], chained from the IV. *)
Fixpoint cipher_update (E : Buffer.t -> Buffer.t) (prev data : Buffer.t)
  : Buffer.t :=
  match data with
  | b0 :: b1 :: b2 :: b3 :: b4 :: b5 :: b6 :: b7 :: rest =>
      let c := E (xor [b0; b1; b2; b3; b4; b5; b6; b7] prev) in
      c ++ cipher_update E c rest
  | _ => []
  end.

(** [decipher.update(data)], likewise. *)
Fixpoint decipher_update (D : Buffer.t -> Buffer.t) (prev data : Buffer.t)
  : Buffer.t :=
  match data with
  | b0 :: b1 :: b2 :: b3 :: b4 :: b5 :: b6 :: b7 :: rest =>
      let c := [b0; b1; b2; b3; b4; b5; b6; b7] in
      xor (D c) prev ++ decipher_update D c rest
  | _ => []
  end.

(** [final()] with padding off: nothing is left to emit, and data that
    was no whole number of blocks is an error. *)
Definition final (data : Buffer.t) : outcome Buffer.t :=
  if Nat.eqb (List.length data mod 8) 0 then Returned []
  else Thrown WrongFinalBlockLength.

End Crypto.

(** ** The class *)
Module EasyNoPassword.

Record t : Type := {
  secret : Buffer.t;
  maxTokenAge : Z;
  iterations : Z;
  iv : Buffer.t
}.

(** [maxTokenAge || 900000] *)
Definition or_default (maxTokenAge : Js.arg) (default : Z) : Z :=
  match maxTokenAge with
  | Js.Num n => if n =? 0 then default else n
  | _ => default
  end.

(** [new EasyNoPassword(secret, maxTokenAge)], for a string [secret]:
    the empty string is the falsy one. *)
Definition constructor (secret : string) (maxTokenAge : Js.arg)
  : outcome t :=
  if String.eqb secret "" then Thrown SecretRequired
  else Returned {| secret := Buffer.from secret;
                   maxTokenAge := or_default maxTokenAge 900000;
                   iterations := 1000;
                   iv := Buffer.alloc 8 |}.

(** The block [// timestamp -> buffer] of [_encrypt]: the timestamp as
    two 32-bit big-endian words in a fresh 8-byte buffer. *)
Definition timestamp_to_buffer (timestamp : Z) : outcome Buffer.t :=
  let buffer := Buffer.alloc 8 in
  match Buffer.writeUInt32BE buffer
          (Js.div timestamp Js.UINT32_CAPACITY) 0 with
  | Thrown e => Thrown e
  | Returned buffer =>
      Buffer.writeUInt32BE buffer
        (inject_Z (Js.rem timestamp Js.UINT32_CAPACITY)) 4
  end.

(** The block [// buffer -> timestamp] of [_decrypt]. *)
Definition buffer_to_timestamp (buffer : Buffer.t) : outcome Z :=
  let timestamp := 0 in
  match Buffer.readUInt32BE buffer 0 with
  | Thrown e => Thrown e
  | Returned hi =>
      let timestamp := Js.add timestamp (Js.mul hi Js.UINT32_CAPACITY) in
      match Buffer.readUInt32BE buffer 4 with
      | Thrown e => Thrown e
      | Returned lo =>
          let timestamp := Js.add timestamp lo in
          Returned timestamp
      end
  end.

Section Methods.

Variable crypto : Crypto.t.
Variable this : t.

Definition _createKey (username : string) : M Buffer.t :=
  let usernameBuffer := Buffer.from username in
  _ <- invoke Pbkdf2 ;;
  if Nat.eqb (Crypto.pbkdf2_length crypto) 5
  then ret (Crypto.pbkdf2 crypto usernameBuffer (secret this)
              (iterations this) 16 None)
  else ret (Crypto.pbkdf2 crypto usernameBuffer (secret this)
              (iterations this) 16 (Some "sha512"%string)).

Definition _encrypt (timestamp : Z) (username : string) : M string :=
  key <- _createKey username ;;
  (* timestamp -> buffer *)
  buffer <- lift (timestamp_to_buffer timestamp) ;;
  (* buffer -> encrypted *)
  _ <- invoke CreateCipheriv ;;
  let encrypted :=
    Crypto.cipher_update (Crypto.bf_encrypt crypto key) (iv this) buffer in
  final <- lift (Crypto.final buffer) ;;
  _ <- assert_strictEqual 0 (List.length final) ;;
  (* encrypted -> token *)
  let token := Base62.encode encrypted in
  ret token.

Definition _decrypt (token : string) (username : string) : M Z :=
  key <- _createKey username ;;
  (* token -> encrypted; a failure is turned into timestamp zero *)
  match Base62.decode token with
  | None => ret 0
  | Some encrypted =>
      (* encrypted -> buf *)
      _ <- invoke CreateDecipheriv ;;
      let buffer :=
        Crypto.decipher_update (Crypto.bf_decrypt crypto key) (iv this)
          encrypted in
      final <- lift (Crypto.final encrypted) ;;
      _ <- assert_strictEqual 0 (List.length final) ;;
      (* buffer -> timestamp *)
      timestamp <- lift (buffer_to_timestamp buffer) ;;
      ret timestamp
  end.

(** [createToken(username, next)], for a string [username] (the
    [typeof] test passes; the empty string is the falsy one). *)
Definition createToken (username : string) : M string :=
  if String.eqb username "" then throw IdentifierRequired
  else
    timestamp <- getTime ;;
    _encrypt timestamp username.

(** [isValid(token, username, next)], for strings [token] and
    [username]. *)
Definition isValid (token : string) (username : string) : M bool :=
  if String.eqb username "" then throw IdentifierRequired
  else
    timestamp <- _decrypt token username ;;
    currentTimestamp <- getTime ;;
    (* the timestamp must be within the acceptable window *)
    let isValid :=
      (Js.sub currentTimestamp timestamp <? maxTokenAge this)
      && (Js.sub currentTimestamp timestamp >? 0) in
    ret isValid.

End Methods.

End EasyNoPassword.

(** A stand-in for the runtime's [crypto], used to instantiate the
    statements about the class at concrete inputs: key derivation that cuts
    or pads password and salt to the key length, and a block cipher that
    leaves blocks as they are. *)
Definition null_crypto : Crypto.t := {|
  Crypto.pbkdf2_length := 6;
  Crypto.pbkdf2 := fun password salt _ keylen _ =>
                     firstn keylen (password ++ salt ++ repeat x00 keylen);
  Crypto.bf_encrypt := fun _ block => block;
  Crypto.bf_decrypt := fun _ block => block
|}.

(** ** Predicates of the statements *)

(** A digit in base [b]. *)
Definition digit (b d : Z) : Prop := 0 <= d < b.

(** The digits after the leading zeros. *)
Definition strip0 (ds : list Z) : list Z := skipn (Base62.lead0 ds) ds.

(** The timestamps that [_encrypt] can write: the quotient
    [timestamp / UINT32_CAPACITY] must lie in 0 .. 0xffffffff. *)
Definition encodable (timestamp : Z) : Prop :=
  0 <= timestamp <= 0xffffffff * Js.UINT32_CAPACITY.

(** The key that [_createKey] hands to its callback. *)
Definition derived_key (crypto : Crypto.t) (this : EasyNoPassword.t)
           (username : string) : Buffer.t :=
  if Nat.eqb (Crypto.pbkdf2_length crypto) 5
  then Crypto.pbkdf2 crypto (Buffer.from username)
         (EasyNoPassword.secret this) (EasyNoPassword.iterations this) 16 None
  else Crypto.pbkdf2 crypto (Buffer.from username)
         (EasyNoPassword.secret this) (EasyNoPassword.iterations this) 16
         (Some "sha512"%string).

(** The world after one more [crypto] operation. *)
Definition after (c : call) (w : world) : world :=
  {| clock := clock w; calls := c :: calls w |}.

(** The instance of the README: its secret, the default window. *)
Definition readme_instance : EasyNoPassword.t := {|
  EasyNoPassword.secret := Buffer.from "shh-this-is-our-secret";
  EasyNoPassword.maxTokenAge := 900000;
  EasyNoPassword.iterations := 1000;
  EasyNoPassword.iv := Buffer.alloc 8
|}.

(** What the class relies on in Blowfish: 8-byte blocks are mapped to
    8-byte blocks, and decryption undoes encryption under the same key. *)
Definition block_cipher (crypto : Crypto.t) : Prop :=
  forall key block,
    List.length block = 8%nat ->
    List.length (Crypto.bf_encrypt crypto key block) = 8%nat
    /\ Crypto.bf_decrypt crypto key (Crypto.bf_encrypt crypto key block)
       = block.

(** All bytes, and all byte sequences of a length. *)
Definition all_bytes : list byte :=
  map (fun i => Buffer.byte_of_Z (Z.of_nat i)) (seq 0 256).

Fixpoint buffers (n : nat) : list Buffer.t :=
  match n with
  | O => [[]]
  | S k => flat_map (fun b => map (cons b) (buffers k)) all_bytes
  end.

(** User identifiers of a given length over two letters: the number [n]
    in binary, least significant digit first, [a] for 0 and [b] for 1. *)
Fixpoint identifier (width : nat) (n : N) : string :=
  match width with
  | O => ""
  | S k => String (if N.odd n then "b" else "a") (identifier k (N.div2 n))
  end.

(** * Properties *)

(** ** Rounding to doubles *)
Section JsFacts.

Lemma fl_exact (x : Z) : Z.abs x < 2 ^ 53 -> Js.fl x = x.
Proof.
  intros Hx. unfold Js.fl.
  destruct (Z.leb_spec (Z.log2 (Z.abs x) - 52) 0) as [|He]; [reflexivity|].
  exfalso.
  assert (Hpos : 0 < Z.abs x).
  { destruct (Z.eq_dec (Z.abs x) 0) as [E|]; [|lia].
    rewrite E in He. simpl in He. lia. }
  apply (Z.log2_lt_pow2 _ 53 Hpos) in Hx. lia.
Qed.

Lemma fl_sign (x : Z) : 0 <= Z.sgn x * Js.fl x.
Proof.
  unfold Js.fl.
  destruct (Z.leb_spec (Z.log2 (Z.abs x) - 52) 0) as [|He].
  - destruct x; simpl; lia.
  - cbv zeta.
    set (e := Z.log2 (Z.abs x) - 52) in *.
    assert (H2 : 0 < 2 ^ e) by (apply Z.pow_pos_nonneg; lia).
    assert (Hq : 0 <= Z.abs x / 2 ^ e) by (apply Z.div_pos; lia).
    set (q' := if Z.abs x mod 2 ^ e <? 2 ^ (e - 1) then _ else _).
    assert (Hq' : 0 <= q').
    { subst q'. repeat match goal with |- context [if ?c then _ else _] =>
                         destruct c end; lia. }
    assert (Hm : 0 <= q' * 2 ^ e) by nia.
    destruct x; simpl Z.sgn; lia.
Qed.

Lemma fl_nonneg (x : Z) : 0 <= x -> 0 <= Js.fl x.
Proof.
  intros Hx. pose proof (fl_sign x) as H.
  destruct (Z.eq_dec x 0) as [->|]; [reflexivity|].
  rewrite Z.sgn_pos in H by lia. lia.
Qed.

Lemma fl_nonpos (x : Z) : x <= 0 -> Js.fl x <= 0.
Proof.
  intros Hx. pose proof (fl_sign x) as H.
  destruct (Z.eq_dec x 0) as [->|]; [reflexivity|].
  rewrite Z.sgn_neg in H by lia. lia.
Qed.

(** A number of at most 53 significant bits is a double whatever its
    exponent. *)
Lemma fl_exact_shift (m k : Z) :
  0 <= k -> Z.abs m < 2 ^ 53 -> Js.fl (m * 2 ^ k) = m * 2 ^ k.
Proof.
  intros Hk Hm.
  destruct (Z.eq_dec m 0) as [->|Hm0]; [reflexivity|].
  assert (Hp : 0 < 2 ^ k) by (apply Z.pow_pos_nonneg; lia).
  unfold Js.fl.
  assert (Ha : Z.abs (m * 2 ^ k) = Z.abs m * 2 ^ k)
    by (rewrite Z.abs_mul, (Z.abs_eq (2 ^ k)); lia).
  rewrite Ha.
  rewrite Z.log2_mul_pow2 by lia.
  set (e := k + Z.log2 (Z.abs m) - 52).
  destruct (Z.leb_spec e 0) as [|He]; [reflexivity|].
  cbv zeta.
  assert (Hlog : Z.log2 (Z.abs m) < 53)
    by (apply Z.log2_lt_pow2; lia).
  assert (Hsplit : 2 ^ k = 2 ^ (k - e) * 2 ^ e)
    by (rewrite <- Z.pow_add_r by lia; f_equal; lia).
  assert (Hpe : 0 < 2 ^ e) by (apply Z.pow_pos_nonneg; lia).
  assert (Hhalf : 0 < 2 ^ (e - 1)) by (apply Z.pow_pos_nonneg; lia).
  assert (Hval : Z.abs m * 2 ^ k = Z.abs m * 2 ^ (k - e) * 2 ^ e)
    by (rewrite Hsplit; ring).
  rewrite Hval, Z.mod_mul, Z.div_mul by lia.
  destruct (Z.ltb_spec 0 (2 ^ (e - 1))) as [_|]; [|lia].
  rewrite <- Hval, <- Ha.
  generalize (m * 2 ^ k). intros x. destruct x; simpl; lia.
Qed.

End JsFacts.

(** ** Bytes and 32-bit words *)
Section BufferFacts.

Lemma Z_of_byte_range (b : byte) : 0 <= Buffer.Z_of_byte b < 256.
Proof.
  unfold Buffer.Z_of_byte. pose proof (Byte.to_N_bounded b). lia.
Qed.

Lemma Z_of_byte_of_Z (z : Z) :
  Buffer.Z_of_byte (Buffer.byte_of_Z z) = z mod 256.
Proof.
  unfold Buffer.Z_of_byte, Buffer.byte_of_Z.
  assert (Hr : 0 <= z mod 256 < 256) by (apply Z.mod_pos_bound; lia).
  destruct (Byte.of_N (Z.to_N (z mod 256))) as [b|] eqn:E.
  - apply Byte.to_of_N in E. rewrite E. lia.
  - apply Byte.of_N_None_iff in E. lia.
Qed.

Lemma byte_of_Z_of_byte (b : byte) :
  Buffer.byte_of_Z (Buffer.Z_of_byte b) = b.
Proof.
  pose proof (Z_of_byte_range b) as Hr.
  unfold Buffer.byte_of_Z. rewrite Z.mod_small by exact Hr.
  unfold Buffer.Z_of_byte. rewrite N2Z.id, Byte.of_to_N. reflexivity.
Qed.

Lemma byte_xor_x00 (a : byte) : Buffer.byte_xor a x00 = a.
Proof.
  unfold Buffer.byte_xor.
  change (Buffer.Z_of_byte x00) with 0.
  rewrite Z.lxor_0_r. apply byte_of_Z_of_byte.
Qed.

(** Reading back a 32-bit word that was written. *)
Lemma read_be32 (v : Z) (rest : Buffer.t) :
  0 <= v < 2 ^ 32 ->
  Buffer.readUInt32BE (Buffer.be32 v ++ rest) 0 = Returned v.
Proof.
  intros Hv. unfold Buffer.readUInt32BE, Buffer.be32. cbn [skipn app].
  f_equal. rewrite !Z_of_byte_of_Z, !Z.shiftr_div_pow2 by lia.
  change (2 ^ 32) with 4294967296 in Hv.
  change (2 ^ 24) with 16777216. change (2 ^ 16) with 65536.
  change (2 ^ 8) with 256.
  Z.to_euclidean_division_equations. lia.
Qed.

End BufferFacts.

(** ** Positional notation *)

Lemma nonneg_strong_ind (P : Z -> Prop) :
  (forall n, 0 <= n -> (forall m, 0 <= m < n -> P m) -> P n) ->
  forall n, 0 <= n -> P n.
Proof.
  intros step n Hn.
  apply (Z_lt_induction (fun n => 0 <= n -> P n)); [|exact Hn|exact Hn].
  intros x IH Hx. apply step; [exact Hx|].
  intros m Hm. apply IH; lia.
Qed.

Section Radix.

Import Base62.

Variable b : Z.
Hypothesis Hb : 1 < b.

Lemma to_radix_step (n : Z) :
  0 < n -> to_radix b n = n mod b :: to_radix b (n / b).
Proof.
  intros Hn. rewrite to_radix_equation_1.
  destruct (more_digits b n) as [|H]; [reflexivity|].
  exfalso; apply H; split; assumption.
Qed.

Lemma to_radix_stop (n : Z) : n <= 0 -> to_radix b n = [].
Proof.
  intros Hn. rewrite to_radix_equation_1.
  destruct (more_digits b n) as [[]|H]; [lia|reflexivity].
Qed.

Lemma of_radix_snoc (ds : list Z) (d : Z) :
  of_radix b (ds ++ [d]) = of_radix b ds * b + d.
Proof. unfold of_radix. rewrite fold_left_app. reflexivity. Qed.

Lemma of_radix_from (ds : list Z) (acc : Z) :
  0 <= acc -> Forall (digit b) ds ->
  acc <= fold_left (fun a d => a * b + d) ds acc.
Proof.
  intros Hacc Hds. revert acc Hacc.
  induction Hds as [|d ds [Hd0 Hd1] _ IH]; intros acc Hacc; simpl; [lia|].
  etransitivity; [|apply IH]; nia.
Qed.

Lemma of_radix_nonneg (ds : list Z) : Forall (digit b) ds -> 0 <= of_radix b ds.
Proof. intros Hds. apply (of_radix_from ds 0); [lia|assumption]. Qed.

Lemma of_radix_pos (d : Z) (ds : list Z) :
  Forall (digit b) (d :: ds) -> d <> 0 -> 0 < of_radix b (d :: ds).
Proof.
  intros Hds Hd. inversion Hds as [|? ? [Hd0 Hd1] Hrest]; subst.
  unfold of_radix. simpl.
  pose proof (of_radix_from ds d ltac:(lia) Hrest). lia.
Qed.

Lemma of_radix_zeros (k : nat) (ds : list Z) :
  of_radix b (repeat 0 k ++ ds) = of_radix b ds.
Proof. induction k as [|k IH]; [reflexivity|exact IH]. Qed.

(** The digits that repeated division gives stand for the number. *)
Lemma of_to_radix (n : Z) : 0 <= n -> of_radix b (rev (to_radix b n)) = n.
Proof.
  revert n. apply nonneg_strong_ind. intros n Hn IH.
  destruct (Z.eq_dec n 0) as [->|Hn0].
  - rewrite to_radix_stop by lia. reflexivity.
  - rewrite to_radix_step by lia. simpl rev.
    rewrite of_radix_snoc, IH.
    + pose proof (Z.div_mod n b). lia.
    + split; [apply Z.div_pos; lia | apply Z.div_lt; lia].
Qed.

Lemma to_radix_digits (n : Z) : Forall (digit b) (to_radix b n).
Proof.
  destruct (Z_lt_dec n 0) as [|Hn].
  { rewrite to_radix_stop by lia. constructor. }
  assert (H0 : 0 <= n) by lia. clear Hn. revert n H0.
  apply nonneg_strong_ind. intros n Hn IH.
  destruct (Z.eq_dec n 0) as [->|Hn0].
  - rewrite to_radix_stop by lia. constructor.
  - rewrite to_radix_step by lia. constructor.
    + apply Z.mod_pos_bound. lia.
    + apply IH. split; [apply Z.div_pos; lia | apply Z.div_lt; lia].
Qed.

Lemma lead0_snoc (ds : list Z) (d : Z) :
  lead0 ds = O -> (ds = [] -> d <> 0) -> lead0 (ds ++ [d]) = O.
Proof.
  destruct ds as [|x ds]; simpl.
  - intros _ Hd. destruct d; [exfalso; apply Hd|..]; reflexivity.
  - intros Hx _. destruct x; [discriminate|reflexivity..].
Qed.

(** The most significant digit that repeated division gives is not 0. *)
Lemma to_radix_msd (n : Z) : lead0 (rev (to_radix b n)) = O.
Proof.
  destruct (Z_lt_dec n 0) as [|Hn].
  { rewrite to_radix_stop by lia. reflexivity. }
  assert (H0 : 0 <= n) by lia. clear Hn. revert n H0.
  apply nonneg_strong_ind. intros n Hn IH.
  destruct (Z.eq_dec n 0) as [->|Hn0].
  - rewrite to_radix_stop by lia. reflexivity.
  - rewrite to_radix_step by lia. simpl rev. apply lead0_snoc.
    + apply IH. split; [apply Z.div_pos; lia | apply Z.div_lt; lia].
    + intros Hnil.
      assert (Hq : n / b = 0).
      { destruct (Z.eq_dec (n / b) 0) as [|Hq]; [assumption|].
        assert (0 <= n / b) by (apply Z.div_pos; lia).
        rewrite to_radix_step in Hnil by lia. simpl in Hnil.
        apply app_eq_nil in Hnil. destruct Hnil; discriminate. }
      pose proof (Z.div_mod n b). lia.
Qed.

(** Repeated division gives back digits without leading zeros. *)
Lemma to_of_radix (ds : list Z) :
  Forall (digit b) ds -> lead0 ds = O ->
  rev (to_radix b (of_radix b ds)) = ds.
Proof.
  induction ds as [|d ds IH] using rev_ind; intros Hds Hlead.
  - change (of_radix b []) with 0. rewrite to_radix_stop by lia. reflexivity.
  - apply Forall_app in Hds. destruct Hds as [Hds Hd].
    inversion Hd as [|? ? [Hd0 Hd1] _]; subst.
    rewrite of_radix_snoc.
    assert (Hv : 0 <= of_radix b ds) by (apply of_radix_nonneg; exact Hds).
    assert (Hpos : 0 < of_radix b ds * b + d).
    { destruct ds as [|x ds].
      - simpl in Hlead. destruct d; [discriminate| |]; unfold of_radix; simpl; lia.
      - simpl in Hlead.
        assert (x <> 0) by (destruct x; [discriminate|..]; lia).
        pose proof (of_radix_pos x ds Hds ltac:(assumption)). nia. }
    rewrite to_radix_step by exact Hpos. simpl rev.
    assert (Hq : (of_radix b ds * b + d) / b = of_radix b ds).
    { rewrite Z.div_add_l by lia. rewrite Z.div_small by lia. lia. }
    assert (Hr : (of_radix b ds * b + d) mod b = d).
    { rewrite Z.add_comm, Z.mod_add by lia. apply Z.mod_small; lia. }
    rewrite Hq, Hr. rewrite IH; [reflexivity|exact Hds|].
    destruct ds as [|x ds]; [reflexivity|].
    simpl in Hlead |- *. destruct x; [discriminate|reflexivity..].
Qed.

(** The number of digits. *)
Lemma to_radix_length_le (d : nat) (n : Z) :
  n < b ^ Z.of_nat d -> (List.length (to_radix b n) <= d)%nat.
Proof.
  revert n. induction d as [|d IH]; intros n Hn.
  - rewrite to_radix_stop by (simpl in Hn; lia). simpl. lia.
  - destruct (Z_lt_dec 0 n) as [Hpos|];
      [|rewrite to_radix_stop by lia; simpl; lia].
    rewrite to_radix_step by exact Hpos. simpl.
    apply le_n_S, IH.
    rewrite Nat2Z.inj_succ, Z.pow_succ_r in Hn by lia.
    apply Z.div_lt_upper_bound; lia.
Qed.

Lemma to_radix_length_gt (d : nat) (n : Z) :
  b ^ Z.of_nat d <= n -> (d < List.length (to_radix b n))%nat.
Proof.
  revert n. induction d as [|d IH]; intros n Hn.
  - rewrite to_radix_step by (simpl in Hn; lia). simpl. lia.
  - assert (0 < b ^ Z.of_nat (S d)) by (apply Z.pow_pos_nonneg; lia).
    rewrite to_radix_step by lia. simpl.
    apply -> Nat.succ_lt_mono. apply IH.
    rewrite Nat2Z.inj_succ, Z.pow_succ_r in Hn by lia.
    apply Z.div_le_lower_bound; lia.
Qed.

(** A number of [k] digits lies below [b ^ k], and at or above
    [b ^ (k - 1)] when its first digit is not 0. *)
Lemma of_radix_bounds (ds : list Z) (acc : Z) :
  0 <= acc -> Forall (digit b) ds ->
  acc * b ^ Z.of_nat (List.length ds)
  <= fold_left (fun a d => a * b + d) ds acc
  < (acc + 1) * b ^ Z.of_nat (List.length ds).
Proof.
  intros Hacc Hds. revert acc Hacc.
  induction Hds as [|d ds [Hd0 Hd1] _ IH]; intros acc Hacc.
  - simpl. lia.
  - cbn [fold_left List.length].
    rewrite Nat2Z.inj_succ, Z.pow_succ_r by lia.
    specialize (IH (acc * b + d) ltac:(nia)).
    assert (0 < b ^ Z.of_nat (List.length ds))
      by (apply Z.pow_pos_nonneg; lia).
    nia.
Qed.

Lemma of_radix_lt (ds : list Z) :
  Forall (digit b) ds -> of_radix b ds < b ^ Z.of_nat (List.length ds).
Proof.
  intros Hds. pose proof (of_radix_bounds ds 0 ltac:(lia) Hds) as H.
  unfold of_radix. lia.
Qed.

Lemma of_radix_ge (d : Z) (ds : list Z) :
  Forall (digit b) (d :: ds) -> d <> 0 ->
  b ^ Z.of_nat (List.length ds) <= of_radix b (d :: ds).
Proof.
  intros Hds Hd. inversion Hds as [|? ? [Hd0 Hd1] Hrest]; subst.
  pose proof (of_radix_bounds ds d ltac:(lia) Hrest) as H.
  assert (0 < b ^ Z.of_nat (List.length ds))
    by (apply Z.pow_pos_nonneg; lia).
  unfold of_radix. simpl. nia.
Qed.

End Radix.

(** ** Leading zero digits and the change of base *)
Section Recode.

Import Base62.

Lemma lead0_split (ds : list Z) : ds = repeat 0 (lead0 ds) ++ strip0 ds.
Proof.
  unfold strip0. induction ds as [|d ds IH]; [reflexivity|].
  destruct d; [|reflexivity..]. simpl. f_equal. exact IH.
Qed.

Lemma lead0_strip0 (ds : list Z) : lead0 (strip0 ds) = O.
Proof.
  unfold strip0. induction ds as [|d ds IH]; [reflexivity|].
  destruct d; [exact IH|reflexivity..].
Qed.

Lemma strip0_length (ds : list Z) :
  (lead0 ds + List.length (strip0 ds) = List.length ds)%nat.
Proof.
  rewrite (lead0_split ds) at 3. rewrite length_app, repeat_length.
  reflexivity.
Qed.

Lemma strip0_digits (b : Z) (ds : list Z) :
  Forall (digit b) ds -> Forall (digit b) (strip0 ds).
Proof.
  intros Hds. rewrite (lead0_split ds) in Hds.
  apply Forall_app in Hds. apply Hds.
Qed.

Lemma lead0_zeros (k : nat) (ds : list Z) :
  lead0 (repeat 0 k ++ ds) = (k + lead0 ds)%nat.
Proof. induction k as [|k IH]; simpl; [reflexivity|]. f_equal. exact IH. Qed.

Lemma of_radix_strip0 (b : Z) (ds : list Z) :
  of_radix b (strip0 ds) = of_radix b ds.
Proof. rewrite (lead0_split ds) at 2. symmetry. apply of_radix_zeros. Qed.

Lemma recode_digits (a b : Z) (ds : list Z) :
  1 < b -> Forall (digit b) (recode a b ds).
Proof.
  intros Hb. unfold recode. apply Forall_app. split.
  - apply Forall_forall. intros x Hx. apply repeat_spec in Hx.
    subst. unfold digit. lia.
  - apply Forall_rev. apply to_radix_digits. exact Hb.
Qed.

Lemma recode_length (a b : Z) (ds : list Z) :
  List.length (recode a b ds)
  = (lead0 ds + List.length (to_radix b (of_radix a ds)))%nat.
Proof.
  unfold recode. rewrite length_app, repeat_length, length_rev. reflexivity.
Qed.

(** Changing the base and changing it back gives the digits back,
    leading zeros included. *)
Lemma recode_recode (a b : Z) (ds : list Z) :
  1 < a -> 1 < b -> Forall (digit a) ds ->
  recode b a (recode a b ds) = ds.
Proof.
  intros Ha Hb Hds.
  assert (Hlead : lead0 (recode a b ds) = lead0 ds).
  { unfold recode. rewrite lead0_zeros, to_radix_msd by exact Hb. lia. }
  assert (Hval : of_radix b (recode a b ds) = of_radix a ds).
  { unfold recode. rewrite of_radix_zeros. apply of_to_radix; [exact Hb|].
    apply of_radix_nonneg with (b := a); assumption. }
  unfold recode at 1. rewrite Hlead, Hval.
  rewrite <- (of_radix_strip0 a ds).
  rewrite to_of_radix.
  - symmetry. apply lead0_split.
  - exact Ha.
  - apply strip0_digits. exact Hds.
  - apply lead0_strip0.
Qed.

End Recode.

(** ** The base-62 codec *)
Section Base62Facts.

Import Base62.

Lemma digit_of_char_of_digit (d : Z) :
  digit 62 d -> digit_of_char (char_of_digit d) = Some d.
Proof.
  intros [H0 H1].
  assert (Hall : forallb
                   (fun i =>
                      match digit_of_char (char_of_digit (Z.of_nat i)) with
                      | Some d' => d' =? Z.of_nat i
                      | None => false
                      end) (seq 0 62) = true) by (vm_compute; reflexivity).
  rewrite forallb_forall in Hall. specialize (Hall (Z.to_nat d)).
  rewrite Z2Nat.id in Hall by lia.
  destruct (digit_of_char (char_of_digit d)) as [d'|].
  - f_equal. apply Z.eqb_eq. apply Hall. apply in_seq. lia.
  - discriminate Hall. apply in_seq. lia.
Qed.

Lemma digits_of_chars_of_digits (ds : list Z) :
  Forall (digit 62) ds -> digits_of_chars (map char_of_digit ds) = Some ds.
Proof.
  induction 1 as [|d ds Hd _ IH]; [reflexivity|].
  simpl. rewrite (digit_of_char_of_digit d Hd), IH. reflexivity.
Qed.

Lemma bytes_digits (bytes : Buffer.t) :
  Forall (digit 256) (map Buffer.Z_of_byte bytes).
Proof.
  apply Forall_forall. intros z Hz. apply in_map_iff in Hz.
  destruct Hz as [x [<- _]]. apply Z_of_byte_range.
Qed.

Lemma bytes_of_digits (bytes : Buffer.t) :
  map Buffer.byte_of_Z (map Buffer.Z_of_byte bytes) = bytes.
Proof.
  rewrite map_map. rewrite <- (map_id bytes) at 2.
  apply map_ext. exact byte_of_Z_of_byte.
Qed.

(** [decode] undoes [encode], for byte sequences of every length. *)
Lemma decode_encode (bytes : Buffer.t) : decode (encode bytes) = Some bytes.
Proof.
  unfold decode, encode.
  rewrite list_ascii_of_string_of_list_ascii.
  rewrite digits_of_chars_of_digits by (apply recode_digits; lia).
  rewrite recode_recode by (try lia; apply bytes_digits).
  rewrite bytes_of_digits. reflexivity.
Qed.

Lemma string_length_of_list (cs : list ascii) :
  String.length (string_of_list_ascii cs) = List.length cs.
Proof. induction cs as [|c cs IH]; simpl; [|rewrite IH]; reflexivity. Qed.

Lemma encode_length (bytes : Buffer.t) :
  String.length (encode bytes)
  = (lead0 (map Buffer.Z_of_byte bytes)
     + List.length
         (to_radix 62 (of_radix 256 (map Buffer.Z_of_byte bytes))))%nat.
Proof.
  unfold encode.
  rewrite string_length_of_list, length_map. apply recode_length.
Qed.

(** A sequence of at least one byte is never encoded as the empty
    string. *)
Lemma encode_nonempty (bytes : Buffer.t) :
  bytes <> [] -> encode bytes <> ""%string.
Proof.
  intros Hne Hempty.
  assert (Hlen : String.length (encode bytes) = O) by (rewrite Hempty; reflexivity).
  rewrite encode_length in Hlen.
  destruct bytes as [|x bytes]; [congruence|].
  cbn [map] in Hlen.
  destruct (Z.eq_dec (Buffer.Z_of_byte x) 0) as [E|E].
  - rewrite E in Hlen. simpl in Hlen. discriminate Hlen.
  - pose proof (of_radix_ge 256 ltac:(lia) (Buffer.Z_of_byte x)
                  (map Buffer.Z_of_byte bytes)
                  (bytes_digits (x :: bytes)) E) as Hge.
    assert (0 < 256 ^ Z.of_nat (List.length (map Buffer.Z_of_byte bytes)))
      by (apply Z.pow_pos_nonneg; lia).
    assert (Hone : 62 ^ Z.of_nat 0
                   <= of_radix 256 (Buffer.Z_of_byte x
                                      :: map Buffer.Z_of_byte bytes))
      by (change (62 ^ Z.of_nat 0) with 1; lia).
    pose proof (to_radix_length_gt 62 ltac:(lia) 0 _ Hone).
    lia.
Qed.

End Base62Facts.

(** ** One block through the cipher *)
Section CipherFacts.

Lemma xor_zero_iv (block : Buffer.t) :
  Crypto.xor block (Buffer.alloc (List.length block)) = block.
Proof.
  unfold Crypto.xor, Buffer.alloc.
  induction block as [|x block IH]; [reflexivity|].
  simpl. rewrite byte_xor_x00. f_equal. exact IH.
Qed.

Lemma block8 (block : Buffer.t) :
  List.length block = 8%nat ->
  exists b0 b1 b2 b3 b4 b5 b6 b7, block = [b0; b1; b2; b3; b4; b5; b6; b7].
Proof.
  intros H.
  do 8 (destruct block as [|? block]; [discriminate H|]).
  destruct block; [|discriminate H].
  repeat eexists.
Qed.

Lemma cipher_update_block (E : Buffer.t -> Buffer.t) (block : Buffer.t) :
  List.length block = 8%nat ->
  Crypto.cipher_update E (Buffer.alloc 8) block = E block.
Proof.
  intros H. pose proof (xor_zero_iv block) as Hx. rewrite H in Hx.
  destruct (block8 block H) as (b0&b1&b2&b3&b4&b5&b6&b7&->).
  cbn [Crypto.cipher_update]. rewrite Hx. apply app_nil_r.
Qed.

Lemma decipher_update_block (D : Buffer.t -> Buffer.t) (block : Buffer.t) :
  List.length block = 8%nat -> List.length (D block) = 8%nat ->
  Crypto.decipher_update D (Buffer.alloc 8) block = D block.
Proof.
  intros H HD. pose proof (xor_zero_iv (D block)) as Hx. rewrite HD in Hx.
  destruct (block8 block H) as (b0&b1&b2&b3&b4&b5&b6&b7&->).
  cbn [Crypto.decipher_update]. rewrite Hx. apply app_nil_r.
Qed.

Lemma final_block (block : Buffer.t) :
  List.length block = 8%nat -> Crypto.final block = Returned [].
Proof. intros H. unfold Crypto.final. rewrite H. reflexivity. Qed.

End CipherFacts.

(** ** The timestamp in the buffer *)
Section TimestampFacts.

Lemma div_floor (timestamp : Z) :
  Qfloor (Js.div timestamp Js.UINT32_CAPACITY)
  = timestamp / Js.UINT32_CAPACITY.
Proof.
  unfold Js.div, Qdiv, Qmult, Qinv, Qfloor. cbn.
  rewrite Z.mul_1_r. reflexivity.
Qed.

Lemma div_in_range (timestamp : Z) :
  Qle_bool 0 (Js.div timestamp Js.UINT32_CAPACITY)
  && Qle_bool (Js.div timestamp Js.UINT32_CAPACITY) (inject_Z 0xffffffff)
  = (0 <=? timestamp) && (timestamp <=? 0xffffffff * Js.UINT32_CAPACITY).
Proof.
  unfold Js.div, Qdiv, Qmult, Qinv, Qle_bool. cbn.
  rewrite !Z.mul_1_r. reflexivity.
Qed.

Lemma write_timestamp (timestamp : Z) :
  encodable timestamp ->
  Buffer.writeUInt32BE (Buffer.alloc 8)
    (Js.div timestamp Js.UINT32_CAPACITY) 0
  = Returned (Buffer.be32 (timestamp / Js.UINT32_CAPACITY)
                ++ Buffer.alloc 4)
  /\ Buffer.writeUInt32BE
       (Buffer.be32 (timestamp / Js.UINT32_CAPACITY) ++ Buffer.alloc 4)
       (inject_Z (Js.rem timestamp Js.UINT32_CAPACITY)) 4
     = Returned (Buffer.be32 (timestamp / Js.UINT32_CAPACITY)
                   ++ Buffer.be32 (timestamp mod Js.UINT32_CAPACITY)).
Proof.
  intros [H0 H1]. split.
  - unfold Buffer.writeUInt32BE. rewrite div_in_range, div_floor.
    rewrite (proj2 (Z.leb_le _ _) H0), (proj2 (Z.leb_le _ _) H1).
    reflexivity.
  - unfold Buffer.writeUInt32BE, Js.rem.
    rewrite Z.rem_mod_nonneg by (unfold Js.UINT32_CAPACITY; lia).
    assert (Hm : 0 <= timestamp mod Js.UINT32_CAPACITY < Js.UINT32_CAPACITY)
      by (apply Z.mod_pos_bound; reflexivity).
    unfold Qle_bool, inject_Z, Qfloor. cbn [Qnum Qden].
    rewrite !Z.mul_1_r, Z.div_1_r.
    rewrite (proj2 (Z.leb_le _ _) (proj1 Hm)).
    rewrite (proj2 (Z.leb_le (timestamp mod Js.UINT32_CAPACITY) 0xffffffff))
      by (change Js.UINT32_CAPACITY with 4294967296 in Hm |- *; lia).
    reflexivity.
Qed.

Lemma timestamp_to_buffer_ok (timestamp : Z) :
  encodable timestamp ->
  EasyNoPassword.timestamp_to_buffer timestamp
  = Returned (Buffer.be32 (timestamp / Js.UINT32_CAPACITY)
                ++ Buffer.be32 (timestamp mod Js.UINT32_CAPACITY)).
Proof.
  intros H. destruct (write_timestamp timestamp H) as [H1 H2].
  unfold EasyNoPassword.timestamp_to_buffer. cbv zeta.
  rewrite H1. exact H2.
Qed.

Lemma timestamp_to_buffer_inv (timestamp : Z) (buffer : Buffer.t) :
  EasyNoPassword.timestamp_to_buffer timestamp = Returned buffer ->
  encodable timestamp.
Proof.
  unfold EasyNoPassword.timestamp_to_buffer, Buffer.writeUInt32BE at 1.
  cbv zeta. rewrite div_in_range. unfold encodable.
  destruct (Z.leb_spec 0 timestamp);
    destruct (Z.leb_spec timestamp (0xffffffff * Js.UINT32_CAPACITY));
    cbn [andb]; try discriminate.
  intros _. split; assumption.
Qed.

Lemma buffer_to_timestamp_words (hi lo : Z) :
  0 <= hi < 2 ^ 32 -> 0 <= lo < 2 ^ 32 ->
  EasyNoPassword.buffer_to_timestamp (Buffer.be32 hi ++ Buffer.be32 lo)
  = Returned (Js.fl (hi * Js.UINT32_CAPACITY + lo)).
Proof.
  intros Hhi Hlo. unfold EasyNoPassword.buffer_to_timestamp. cbv zeta.
  rewrite read_be32 by exact Hhi.
  change (Buffer.readUInt32BE (Buffer.be32 hi ++ Buffer.be32 lo) 4)
    with (Buffer.readUInt32BE (Buffer.be32 lo ++ []) 0).
  rewrite read_be32 by exact Hlo.
  unfold Js.add, Js.mul.
  change Js.UINT32_CAPACITY with (2 ^ 32).
  assert (Hword : Js.fl (hi * 2 ^ 32) = hi * 2 ^ 32).
  { apply fl_exact_shift; [lia|].
    change (2 ^ 53) with 9007199254740992.
    change (2 ^ 32) with 4294967296 in Hhi. lia. }
  rewrite Hword, Z.add_0_l, Hword. reflexivity.
Qed.

Lemma buffer_to_timestamp_nonneg (buffer : Buffer.t) (timestamp : Z) :
  EasyNoPassword.buffer_to_timestamp buffer = Returned timestamp ->
  0 <= timestamp.
Proof.
  unfold EasyNoPassword.buffer_to_timestamp, Buffer.readUInt32BE.
  cbv zeta.
  destruct (skipn 0 buffer) as [|a0 [|a1 [|a2 [|a3 ?]]]]; try discriminate.
  destruct (skipn 4 buffer) as [|c0 [|c1 [|c2 [|c3 ?]]]]; try discriminate.
  intros H. injection H as <-.
  pose proof (Z_of_byte_range a0). pose proof (Z_of_byte_range a1).
  pose proof (Z_of_byte_range a2). pose proof (Z_of_byte_range a3).
  pose proof (Z_of_byte_range c0). pose proof (Z_of_byte_range c1).
  pose proof (Z_of_byte_range c2). pose proof (Z_of_byte_range c3).
  unfold Js.add, Js.mul.
  apply fl_nonneg. apply Z.add_nonneg_nonneg; [|lia].
  apply fl_nonneg. apply Z.add_nonneg_nonneg; [lia|].
  apply fl_nonneg. apply Z.mul_nonneg_nonneg; [lia|].
  unfold Js.UINT32_CAPACITY. lia.
Qed.

End TimestampFacts.

(** ** The constructor *)
Section ConstructorFacts.

Lemma constructor_inv (secret : string) (maxTokenAge : Js.arg)
      (this : EasyNoPassword.t) :
  EasyNoPassword.constructor secret maxTokenAge = Returned this ->
  secret <> ""%string
  /\ this = {| EasyNoPassword.secret := Buffer.from secret;
               EasyNoPassword.maxTokenAge :=
                 EasyNoPassword.or_default maxTokenAge 900000;
               EasyNoPassword.iterations := 1000;
               EasyNoPassword.iv := Buffer.alloc 8 |}.
Proof.
  unfold EasyNoPassword.constructor.
  destruct (String.eqb_spec secret "") as [|Hne]; [discriminate|].
  intros H. injection H as <-. split; [exact Hne|reflexivity].
Qed.

Lemma constructor_ok (secret : string) (maxTokenAge : Js.arg) :
  secret <> ""%string ->
  EasyNoPassword.constructor secret maxTokenAge
  = Returned {| EasyNoPassword.secret := Buffer.from secret;
                EasyNoPassword.maxTokenAge :=
                  EasyNoPassword.or_default maxTokenAge 900000;
                EasyNoPassword.iterations := 1000;
                EasyNoPassword.iv := Buffer.alloc 8 |}.
Proof.
  intros Hne. unfold EasyNoPassword.constructor.
  destruct (String.eqb_spec secret "") as [|_]; [contradiction|reflexivity].
Qed.

End ConstructorFacts.

(** C10. Constructing the codec with a falsy [maxTokenAge] (the argument
    left out, [null], [NaN] or 0) configures a window of exactly 900000
    milliseconds; a truthy one (any other number, negative ones included)
    is stored as it is. *)
Theorem constructor_maxTokenAge (secret : string) (maxTokenAge : Js.arg) :
  secret <> ""%string ->
  exists this,
    EasyNoPassword.constructor secret maxTokenAge = Returned this
    /\ (Js.truthy maxTokenAge = false ->
        EasyNoPassword.maxTokenAge this = 900000)
    /\ (Js.truthy maxTokenAge = true ->
        maxTokenAge = Js.Num (EasyNoPassword.maxTokenAge this)).
Proof.
  intros Hne. eexists. split; [apply constructor_ok; exact Hne|].
  cbn [EasyNoPassword.maxTokenAge].
  destruct maxTokenAge as [| | |n]; cbn; try (split; [reflexivity|discriminate]).
  destruct (Z.eqb_spec n 0); cbn; split; try discriminate; reflexivity.
Qed.

Lemma constructor_maxTokenAge_witness :
  "shh-this-is-our-secret"%string <> ""%string
  /\ exists this,
      EasyNoPassword.constructor "shh-this-is-our-secret" (Js.Num (-5))
      = Returned this
      /\ (Js.truthy (Js.Num (-5)) = false ->
          EasyNoPassword.maxTokenAge this = 900000)
      /\ (Js.truthy (Js.Num (-5)) = true ->
          Js.Num (-5) = Js.Num (EasyNoPassword.maxTokenAge this)).
Proof.
  split; [discriminate|].
  apply (constructor_maxTokenAge "shh-this-is-our-secret" (Js.Num (-5))).
  discriminate.
Defined.

(** C8. Base-62 [decode] is the exact inverse of [encode] on every 8-byte
    sequence, those with leading zero bytes included, and the encoding of
    such a sequence is never the empty string. *)
Theorem base62_round_trip (b : Buffer.t) :
  List.length b = 8%nat ->
  Base62.decode (Base62.encode b) = Some b
  /\ Base62.encode b <> ""%string.
Proof.
  intros Hlen. split; [apply decode_encode|].
  apply encode_nonempty. intros ->. discriminate Hlen.
Qed.

Lemma base62_round_trip_witness :
  List.length (Buffer.alloc 8) = 8%nat
  /\ Base62.decode (Base62.encode (Buffer.alloc 8)) = Some (Buffer.alloc 8)
  /\ Base62.encode (Buffer.alloc 8) <> ""%string.
Proof.
  split; [reflexivity|].
  apply (base62_round_trip (Buffer.alloc 8)). reflexivity.
Defined.

(** The two blocks on their own: the words written for a timestamp, read
    back and put together again. *)
Lemma timestamp_buffer_round_trip (timestamp : Z) :
  encodable timestamp ->
  Js.fl timestamp = timestamp ->
  exists buffer,
    EasyNoPassword.timestamp_to_buffer timestamp = Returned buffer
    /\ buffer = Buffer.be32 (timestamp / 2 ^ 32)
                  ++ Buffer.be32 (timestamp mod 2 ^ 32)
    /\ Buffer.readUInt32BE buffer 0 = Returned (timestamp / 2 ^ 32)
    /\ Buffer.readUInt32BE buffer 4 = Returned (timestamp mod 2 ^ 32)
    /\ EasyNoPassword.buffer_to_timestamp buffer = Returned timestamp.
Proof.
  intros Henc Hnum. eexists. split; [apply timestamp_to_buffer_ok; exact Henc|].
  change Js.UINT32_CAPACITY with (2 ^ 32).
  assert (Hhi : 0 <= timestamp / 2 ^ 32 < 2 ^ 32).
  { destruct Henc as [H0 H1]. change Js.UINT32_CAPACITY with (2 ^ 32) in H1.
    split; [apply Z.div_pos; lia|].
    apply Z.div_lt_upper_bound; [lia|].
    change (2 ^ 32) with 4294967296 in *. lia. }
  assert (Hlo : 0 <= timestamp mod 2 ^ 32 < 2 ^ 32)
    by (apply Z.mod_pos_bound; lia).
  split; [reflexivity|]. split; [apply read_be32; exact Hhi|].
  split.
  - change (Buffer.readUInt32BE
              (Buffer.be32 (timestamp / 2 ^ 32)
                 ++ Buffer.be32 (timestamp mod 2 ^ 32)) 4)
      with (Buffer.readUInt32BE (Buffer.be32 (timestamp mod 2 ^ 32) ++ []) 0).
    apply read_be32. exact Hlo.
  - rewrite buffer_to_timestamp_words by assumption.
    change Js.UINT32_CAPACITY with (2 ^ 32).
    rewrite Z.mul_comm, <- Z.div_mod by lia. rewrite Hnum. reflexivity.
Qed.

(** ** The methods, step by step *)
Section MethodFacts.

Variable crypto : Crypto.t.
Variable this : EasyNoPassword.t.

Lemma createKey_run (username : string) (w : world) :
  EasyNoPassword._createKey crypto this username w
  = (Returned (derived_key crypto this username), after Pbkdf2 w).
Proof.
  unfold EasyNoPassword._createKey, derived_key, bind, invoke, ret, after.
  destruct (Nat.eqb (Crypto.pbkdf2_length crypto) 5); reflexivity.
Qed.

Lemma words_length (hi lo : Z) :
  List.length (Buffer.be32 hi ++ Buffer.be32 lo) = 8%nat.
Proof. reflexivity. Qed.

Lemma encrypt_run (timestamp : Z) (username : string) (w : world) :
  EasyNoPassword.iv this = Buffer.alloc 8 ->
  encodable timestamp ->
  EasyNoPassword._encrypt crypto this timestamp username w
  = (Returned
       (Base62.encode
          (Crypto.bf_encrypt crypto (derived_key crypto this username)
             (Buffer.be32 (timestamp / Js.UINT32_CAPACITY)
                ++ Buffer.be32 (timestamp mod Js.UINT32_CAPACITY)))),
     after CreateCipheriv (after Pbkdf2 w)).
Proof.
  intros Hiv Henc. unfold EasyNoPassword._encrypt, bind.
  rewrite createKey_run. unfold lift.
  rewrite (timestamp_to_buffer_ok timestamp Henc).
  cbn [invoke]. unfold invoke.
  rewrite final_block by apply words_length.
  cbn [List.length assert_strictEqual Nat.eqb ret].
  rewrite Hiv, cipher_update_block by apply words_length.
  reflexivity.
Qed.

Lemma encrypt_inv (timestamp : Z) (username token : string) (w w' : world) :
  EasyNoPassword._encrypt crypto this timestamp username w
  = (Returned token, w') ->
  encodable timestamp.
Proof.
  unfold EasyNoPassword._encrypt, bind. rewrite createKey_run. unfold lift.
  destruct (EasyNoPassword.timestamp_to_buffer timestamp) as [buffer|e] eqn:E.
  - intros _. apply (timestamp_to_buffer_inv timestamp buffer E).
  - discriminate.
Qed.

(** A token that base-62 decoding refuses: timestamp zero, and no
    decipher is created. *)
Lemma decrypt_undecodable (token username : string) (w : world) :
  Base62.decode token = None ->
  EasyNoPassword._decrypt crypto this token username w
  = (Returned 0, after Pbkdf2 w).
Proof.
  intros Hdec. unfold EasyNoPassword._decrypt, bind.
  rewrite createKey_run, Hdec. reflexivity.
Qed.

(** A token that decodes to one block. *)
Lemma decrypt_block (token username : string) (encrypted : Buffer.t)
      (w : world) :
  EasyNoPassword.iv this = Buffer.alloc 8 ->
  Base62.decode token = Some encrypted ->
  List.length encrypted = 8%nat ->
  List.length (Crypto.bf_decrypt crypto (derived_key crypto this username)
                 encrypted) = 8%nat ->
  EasyNoPassword._decrypt crypto this token username w
  = (EasyNoPassword.buffer_to_timestamp
       (Crypto.bf_decrypt crypto (derived_key crypto this username)
          encrypted),
     after CreateDecipheriv (after Pbkdf2 w)).
Proof.
  intros Hiv Hdec Hlen HD. unfold EasyNoPassword._decrypt, bind.
  rewrite createKey_run, Hdec. unfold invoke, lift.
  rewrite final_block by exact Hlen.
  cbn [List.length assert_strictEqual Nat.eqb ret].
  rewrite Hiv, decipher_update_block by assumption.
  unfold after.
  destruct (EasyNoPassword.buffer_to_timestamp _); reflexivity.
Qed.

(** Whatever [_decrypt] hands on is a non-negative number, and the clock
    is not touched. *)
Lemma decrypt_result (token username : string) (w w' : world) (timestamp : Z) :
  EasyNoPassword._decrypt crypto this token username w
  = (Returned timestamp, w') ->
  0 <= timestamp /\ clock w' = clock w.
Proof.
  unfold EasyNoPassword._decrypt, bind. rewrite createKey_run.
  destruct (Base62.decode token) as [encrypted|].
  - unfold invoke, lift.
    destruct (Crypto.final encrypted) as [final|]; [|discriminate].
    destruct (assert_strictEqual 0 (List.length final) _) as [[[]|] w1] eqn:Ea;
      [|discriminate].
    assert (Hw1 : clock w1 = clock w).
    { unfold assert_strictEqual in Ea.
      destruct (Nat.eqb 0 (List.length final)); unfold ret, throw in Ea;
        [injection Ea as <-; reflexivity|discriminate Ea]. }
    destruct (EasyNoPassword.buffer_to_timestamp _) as [ts|] eqn:Eb;
      [|discriminate].
    unfold ret. intros H. injection H as <- <-.
    split; [apply (buffer_to_timestamp_nonneg _ _ Eb)|exact Hw1].
  - unfold ret. intros H. injection H as <- <-. split; [lia|reflexivity].
Qed.

(** The comparison that [isValid] computes in doubles is the exact one. *)
Lemma window_exact (now timestamp age : Z) :
  Js.time_value now -> 0 <= timestamp ->
  (Js.sub now timestamp <? age) && (Js.sub now timestamp >? 0)
  = (0 <? now - timestamp) && (now - timestamp <? age).
Proof.
  intros [Hlo Hhi] Hts. unfold Js.sub, Js.MAX_TIME in *.
  rewrite Z.gtb_ltb, andb_comm.
  destruct (Z.ltb_spec 0 (now - timestamp)) as [Hpos|Hneg].
  - rewrite fl_exact by (change (2 ^ 53) with 9007199254740992; lia).
    destruct (Z.ltb_spec 0 (now - timestamp)); [reflexivity|lia].
  - pose proof (fl_nonpos (now - timestamp) Hneg).
    destruct (Z.ltb_spec 0 (Js.fl (now - timestamp))); [lia|reflexivity].
Qed.

Lemma isValid_run (token username : string) (w w' : world) (timestamp : Z) :
  username <> ""%string ->
  EasyNoPassword._decrypt crypto this token username w
  = (Returned timestamp, w') ->
  EasyNoPassword.isValid crypto this token username w
  = (Returned
       ((Js.sub (clock w) timestamp <? EasyNoPassword.maxTokenAge this)
        && (Js.sub (clock w) timestamp >? 0)), w').
Proof.
  intros Hne Hdec. unfold EasyNoPassword.isValid.
  destruct (String.eqb_spec username "") as [|_]; [contradiction|].
  unfold bind. rewrite Hdec. unfold getTime, ret.
  destruct (decrypt_result _ _ _ _ _ Hdec) as [_ ->]. reflexivity.
Qed.

End MethodFacts.

(** C5. The derived key is the 16-byte value that PBKDF2 computes with 1000
    iterations and SHA-512, with the username as the password and the secret
    as the salt; identical (secret, username) pairs always give the identical
    key.  The runtime is one whose [crypto.pbkdf2] takes a digest argument
    (every Node.js since v0.12), with a PBKDF2 that returns as many bytes as
    it is asked for. *)
Theorem createKey_pbkdf2 (crypto : Crypto.t) (secret : string)
        (maxTokenAge : Js.arg) (this : EasyNoPassword.t) (username : string)
        (w : world) :
  EasyNoPassword.constructor secret maxTokenAge = Returned this ->
  Crypto.pbkdf2_length crypto <> 5%nat ->
  (forall password salt iterations keylen digest,
      List.length (Crypto.pbkdf2 crypto password salt iterations keylen digest)
      = keylen) ->
  exists key,
    fst (EasyNoPassword._createKey crypto this username w) = Returned key
    /\ key = Crypto.pbkdf2 crypto (Buffer.from username) (Buffer.from secret)
               1000 16 (Some "sha512"%string)
    /\ List.length key = 16%nat
    /\ (forall maxTokenAge' this' w',
           EasyNoPassword.constructor secret maxTokenAge' = Returned this' ->
           fst (EasyNoPassword._createKey crypto this' username w')
           = Returned key).
Proof.
  intros Hthis Harity Hlen.
  assert (Hkey : forall m t, EasyNoPassword.constructor secret m = Returned t ->
                 derived_key crypto t username
                 = Crypto.pbkdf2 crypto (Buffer.from username)
                     (Buffer.from secret) 1000 16 (Some "sha512"%string)).
  { intros m t Ht. apply constructor_inv in Ht. destruct Ht as [_ ->].
    unfold derived_key. cbn [EasyNoPassword.secret EasyNoPassword.iterations].
    destruct (Nat.eqb_spec (Crypto.pbkdf2_length crypto) 5);
      [contradiction|reflexivity]. }
  exists (derived_key crypto this username).
  rewrite createKey_run. split; [reflexivity|].
  split; [apply (Hkey maxTokenAge this Hthis)|].
  split; [rewrite (Hkey maxTokenAge this Hthis); apply Hlen|].
  intros m t w' Ht. rewrite createKey_run. cbn [fst]. f_equal.
  rewrite (Hkey m t Ht). symmetry. apply (Hkey maxTokenAge this Hthis).
Qed.

Lemma null_pbkdf2_length password salt (iterations : Z) keylen
      (digest : option string) :
  List.length (Crypto.pbkdf2 null_crypto password salt iterations keylen digest)
  = keylen.
Proof.
  cbn [Crypto.pbkdf2 null_crypto]. rewrite length_firstn, !length_app, repeat_length.
  lia.
Qed.

Lemma createKey_pbkdf2_witness :
  EasyNoPassword.constructor "shh-this-is-our-secret" Js.Undefined
  = Returned readme_instance
  /\ Crypto.pbkdf2_length null_crypto <> 5%nat
  /\ (forall password salt iterations keylen digest,
         List.length
           (Crypto.pbkdf2 null_crypto password salt iterations keylen digest)
         = keylen)
  /\ exists key,
      fst (EasyNoPassword._createKey null_crypto readme_instance "frani"
             (World 1762000000000 [])) = Returned key
      /\ key = Crypto.pbkdf2 null_crypto (Buffer.from "frani")
                 (Buffer.from "shh-this-is-our-secret") 1000 16
                 (Some "sha512"%string)
      /\ List.length key = 16%nat
      /\ (forall maxTokenAge' this' w',
             EasyNoPassword.constructor "shh-this-is-our-secret" maxTokenAge'
             = Returned this' ->
             fst (EasyNoPassword._createKey null_crypto this' "frani" w')
             = Returned key).
Proof.
  split; [reflexivity|]. split; [discriminate|].
  split; [exact null_pbkdf2_length|].
  apply (createKey_pbkdf2 null_crypto "shh-this-is-our-secret" Js.Undefined
           readme_instance "frani" (World 1762000000000 [])).
  - reflexivity.
  - discriminate.
  - exact null_pbkdf2_length.
Defined.

(** C2. [isValid] declares a token valid exactly when the timestamp
    recovered from it satisfies [0 < now - timestamp < maxTokenAge]: both
    bounds are strict, so a token whose timestamp equals or exceeds the
    verification time is invalid, and so is a token exactly [maxTokenAge]
    old. *)
Theorem isValid_window (crypto : Crypto.t) (this : EasyNoPassword.t)
        (token username : string) (w w' : world) (timestamp : Z) :
  username <> ""%string ->
  Js.time_value (clock w) ->
  EasyNoPassword._decrypt crypto this token username w
  = (Returned timestamp, w') ->
  exists valid : bool,
    fst (EasyNoPassword.isValid crypto this token username w) = Returned valid
    /\ (valid = true <->
        0 < clock w - timestamp < EasyNoPassword.maxTokenAge this)
    /\ (clock w <= timestamp -> valid = false)
    /\ (clock w - timestamp = EasyNoPassword.maxTokenAge this ->
        valid = false).
Proof.
  intros Hne Hnow Hdec.
  destruct (decrypt_result _ _ _ _ _ _ _ Hdec) as [Hts _].
  rewrite (isValid_run _ _ _ _ _ _ _ Hne Hdec).
  rewrite (window_exact _ _ _ Hnow Hts).
  eexists. split; [reflexivity|].
  destruct (Z.ltb_spec 0 (clock w - timestamp));
    destruct (Z.ltb_spec (clock w - timestamp) (EasyNoPassword.maxTokenAge this));
    cbn [andb]; repeat split; intros; try discriminate; try reflexivity; lia.
Qed.

(** C9. When base-62 decoding of the token fails, [isValid] goes on with
    timestamp 0 and without creating a decipher (the key derivation is the
    only [crypto] operation invoked), so it answers true exactly when
    [0 < now < maxTokenAge]; in particular at any time
    [now >= maxTokenAge] the token is reported invalid. *)
Theorem isValid_undecodable (crypto : Crypto.t) (this : EasyNoPassword.t)
        (token username : string) (w : world) :
  username <> ""%string ->
  Js.time_value (clock w) ->
  Base62.decode token = None ->
  EasyNoPassword._decrypt crypto this token username w
  = (Returned 0, after Pbkdf2 w)
  /\ exists valid : bool,
      EasyNoPassword.isValid crypto this token username w
      = (Returned valid, after Pbkdf2 w)
      /\ (valid = true <-> 0 < clock w < EasyNoPassword.maxTokenAge this)
      /\ (EasyNoPassword.maxTokenAge this <= clock w -> valid = false).
Proof.
  intros Hne Hnow Hdec.
  pose proof (decrypt_undecodable crypto this token username w Hdec) as Hrun.
  split; [exact Hrun|].
  rewrite (isValid_run _ _ _ _ _ _ _ Hne Hrun).
  rewrite (window_exact _ _ _ Hnow (Z.le_refl 0)), Z.sub_0_r.
  eexists. split; [reflexivity|].
  destruct (Z.ltb_spec 0 (clock w));
    destruct (Z.ltb_spec (clock w) (EasyNoPassword.maxTokenAge this));
    cbn [andb]; repeat split; intros; try discriminate; try reflexivity; lia.
Qed.

Lemma isValid_undecodable_witness :
  "alice"%string <> ""%string
  /\ Js.time_value (clock (World 1762000000000 []))
  /\ Base62.decode "not-a-valid-base62-string!!" = None
  /\ EasyNoPassword._decrypt null_crypto readme_instance
       "not-a-valid-base62-string!!" "alice" (World 1762000000000 [])
     = (Returned 0, after Pbkdf2 (World 1762000000000 []))
  /\ exists valid : bool,
      EasyNoPassword.isValid null_crypto readme_instance
        "not-a-valid-base62-string!!" "alice" (World 1762000000000 [])
      = (Returned valid, after Pbkdf2 (World 1762000000000 []))
      /\ (valid = true <->
          0 < clock (World 1762000000000 [])
          < EasyNoPassword.maxTokenAge readme_instance)
      /\ (EasyNoPassword.maxTokenAge readme_instance
          <= clock (World 1762000000000 []) -> valid = false).
Proof.
  split; [discriminate|].
  split; [unfold Js.time_value; vm_compute; split; discriminate|].
  split; [vm_compute; reflexivity|].
  apply (isValid_undecodable null_crypto readme_instance
           "not-a-valid-base62-string!!" "alice" (World 1762000000000 [])).
  - discriminate.
  - unfold Js.time_value. vm_compute. split; discriminate.
  - vm_compute. reflexivity.
Defined.

Lemma isValid_window_witness :
  "frani"%string <> ""%string
  /\ Js.time_value (clock (World 1762000000500 []))
  /\ EasyNoPassword._decrypt null_crypto readme_instance "00V1IiQwi" "frani"
       (World 1762000000500 [])
     = (Returned 1762000000000,
        after CreateDecipheriv (after Pbkdf2 (World 1762000000500 [])))
  /\ exists valid : bool,
      fst (EasyNoPassword.isValid null_crypto readme_instance "00V1IiQwi"
             "frani" (World 1762000000500 [])) = Returned valid
      /\ (valid = true <->
          0 < clock (World 1762000000500 []) - 1762000000000
          < EasyNoPassword.maxTokenAge readme_instance)
      /\ (clock (World 1762000000500 []) <= 1762000000000 -> valid = false)
      /\ (clock (World 1762000000500 []) - 1762000000000
          = EasyNoPassword.maxTokenAge readme_instance -> valid = false).
Proof.
  split; [discriminate|].
  split; [unfold Js.time_value; vm_compute; split; discriminate|].
  split; [vm_compute; reflexivity|].
  apply (isValid_window null_crypto readme_instance "00V1IiQwi" "frani"
           (World 1762000000500 [])
           (after CreateDecipheriv (after Pbkdf2 (World 1762000000500 [])))
           1762000000000).
  - discriminate.
  - unfold Js.time_value. vm_compute. split; discriminate.
  - vm_compute. reflexivity.
Defined.

(** C3, at an input where the code departs from it: with a window of
    2000000000000 ms, the token ["not-a-valid-base62-string!!"], which
    base-62 decoding refuses, is reported valid for ["alice"] at time
    1762000000000, whatever the key derivation and the cipher are. *)
Theorem isValid_accepts_malformed_token (crypto : Crypto.t) :
  exists this,
    EasyNoPassword.constructor "shh-this-is-our-secret" (Js.Num 2000000000000)
    = Returned this
    /\ Base62.decode "not-a-valid-base62-string!!" = None
    /\ EasyNoPassword.isValid crypto this "not-a-valid-base62-string!!"
         "alice" (World 1762000000000 [])
       = (Returned true, World 1762000000000 [Pbkdf2]).
Proof.
  eexists. split; [reflexivity|].
  assert (Hdec : Base62.decode "not-a-valid-base62-string!!" = None)
    by (vm_compute; reflexivity).
  split; [exact Hdec|].
  erewrite isValid_run;
    [|discriminate|apply decrypt_undecodable; exact Hdec].
  reflexivity.
Qed.

(** ** Tokens *)
Section TokenFacts.

Variable crypto : Crypto.t.

Lemma createToken_inv (this : EasyNoPassword.t) (username token : string)
      (w : world) :
  EasyNoPassword.iv this = Buffer.alloc 8 ->
  fst (EasyNoPassword.createToken crypto this username w) = Returned token ->
  username <> ""%string
  /\ encodable (clock w)
  /\ token
     = Base62.encode
         (Crypto.bf_encrypt crypto (derived_key crypto this username)
            (Buffer.be32 (clock w / Js.UINT32_CAPACITY)
               ++ Buffer.be32 (clock w mod Js.UINT32_CAPACITY))).
Proof.
  intros Hiv. unfold EasyNoPassword.createToken.
  destruct (String.eqb_spec username "") as [|Hne]; [discriminate|].
  unfold bind, getTime.
  destruct (EasyNoPassword._encrypt crypto this (clock w) username w)
    as [[t|e] w1] eqn:E; [|discriminate].
  cbn [fst]. intros H. injection H as ->.
  pose proof (encrypt_inv _ _ _ _ _ _ _ E) as Henc.
  rewrite (encrypt_run crypto this _ username w Hiv Henc) in E.
  injection E as <- _. split; [exact Hne|]. split; [exact Henc|reflexivity].
Qed.

End TokenFacts.

Lemma null_block_cipher : block_cipher null_crypto.
Proof. intros key block Hlen. split; [exact Hlen|reflexivity]. Qed.

(** C1. A token that [createToken] produces for a username is accepted by
    [isValid] for the same username, under the same secret, at any time
    [now + epsilon] with [0 < epsilon < maxTokenAge]. *)
Theorem token_round_trip (crypto : Crypto.t) (secret : string)
        (maxTokenAge : Js.arg) (this : EasyNoPassword.t)
        (username token : string) (w w' : world) (epsilon : Z) :
  block_cipher crypto ->
  EasyNoPassword.constructor secret maxTokenAge = Returned this ->
  fst (EasyNoPassword.createToken crypto this username w) = Returned token ->
  0 < epsilon < EasyNoPassword.maxTokenAge this ->
  clock w' = clock w + epsilon ->
  Js.time_value (clock w') ->
  fst (EasyNoPassword.isValid crypto this token username w') = Returned true.
Proof.
  intros Hbf Hthis Htok Heps Hclock Hnow.
  assert (Hiv : EasyNoPassword.iv this = Buffer.alloc 8).
  { apply constructor_inv in Hthis. destruct Hthis as [_ ->]. reflexivity. }
  destruct (createToken_inv crypto this username token w Hiv Htok)
    as (Hne & Henc & ->).
  set (key := derived_key crypto this username).
  set (buffer := Buffer.be32 (clock w / Js.UINT32_CAPACITY)
                   ++ Buffer.be32 (clock w mod Js.UINT32_CAPACITY)).
  destruct (Hbf key buffer (words_length _ _)) as [HlenE HDE].
  assert (Hdec : EasyNoPassword._decrypt crypto this
                   (Base62.encode (Crypto.bf_encrypt crypto key buffer))
                   username w'
                 = (Returned (clock w),
                    after CreateDecipheriv (after Pbkdf2 w'))).
  { rewrite (decrypt_block crypto this _ username
               (Crypto.bf_encrypt crypto key buffer) w' Hiv
               (decode_encode _) HlenE);
      fold key; rewrite HDE; [|apply words_length].
    f_equal. subst buffer.
    destruct Henc as [H0 H1]. change Js.UINT32_CAPACITY with (2 ^ 32) in *.
    rewrite buffer_to_timestamp_words.
    - change Js.UINT32_CAPACITY with (2 ^ 32).
      rewrite Z.mul_comm, <- Z.div_mod by lia.
      f_equal. apply fl_exact.
      destruct Hnow as [_ Hmax]. unfold Js.MAX_TIME in Hmax.
      change (2 ^ 53) with 9007199254740992. lia.
    - split; [apply Z.div_pos; lia|].
      apply Z.div_lt_upper_bound; [lia|].
      change (2 ^ 32) with 4294967296 in *. lia.
    - apply Z.mod_pos_bound. lia. }
  rewrite (isValid_run _ _ _ _ _ _ _ Hne Hdec).
  rewrite window_exact by (try exact Hnow; destruct Henc; lia).
  cbn [fst]. f_equal.
  replace (clock w' - clock w) with epsilon by lia.
  destruct (Z.ltb_spec 0 epsilon); [|lia].
  destruct (Z.ltb_spec epsilon (EasyNoPassword.maxTokenAge this)); [|lia].
  reflexivity.
Qed.

Lemma token_round_trip_witness :
  block_cipher null_crypto
  /\ EasyNoPassword.constructor "shh-this-is-our-secret" Js.Undefined
     = Returned readme_instance
  /\ fst (EasyNoPassword.createToken null_crypto readme_instance "frani"
            (World 1762000000000 [])) = Returned "00V1IiQwi"%string
  /\ 0 < 899999 < EasyNoPassword.maxTokenAge readme_instance
  /\ clock (World 1762000899999 []) = clock (World 1762000000000 []) + 899999
  /\ Js.time_value (clock (World 1762000899999 []))
  /\ fst (EasyNoPassword.isValid null_crypto readme_instance "00V1IiQwi"
            "frani" (World 1762000899999 [])) = Returned true.
Proof.
  split; [exact null_block_cipher|]. split; [reflexivity|].
  split; [vm_compute; reflexivity|].
  split; [vm_compute; split; reflexivity|].
  split; [reflexivity|].
  split; [unfold Js.time_value; vm_compute; split; discriminate|].
  apply (token_round_trip null_crypto "shh-this-is-our-secret" Js.Undefined
           readme_instance "frani" "00V1IiQwi" (World 1762000000000 [])
           (World 1762000899999 []) 899999).
  - exact null_block_cipher.
  - reflexivity.
  - vm_compute. reflexivity.
  - vm_compute. split; reflexivity.
  - reflexivity.
  - unfold Js.time_value. vm_compute. split; discriminate.
Defined.

(** C4. [createToken] encodes the timestamp [now] as an 8-byte big-endian
    buffer whose first 32-bit word is [floor (now / 2^32)] and whose second
    word is [now mod 2^32]: this buffer is the block it encrypts, and the
    token is the encoding of the encrypted block.  [_decrypt] puts the two
    words of the block it deciphers together again, high word times 2^32
    plus low word (in doubles), which for the words of [now] is [now]. *)
Theorem createToken_timestamp_words (crypto : Crypto.t) (secret : string)
        (maxTokenAge : Js.arg) (this : EasyNoPassword.t) (username : string)
        (key : Buffer.t) (w : world) :
  EasyNoPassword.constructor secret maxTokenAge = Returned this ->
  username <> ""%string ->
  encodable (clock w) ->
  Js.fl (clock w) = clock w ->
  fst (EasyNoPassword._createKey crypto this username w) = Returned key ->
  exists buffer,
    buffer = Buffer.be32 (clock w / 2 ^ 32) ++ Buffer.be32 (clock w mod 2 ^ 32)
    /\ List.length buffer = 8%nat
    /\ Buffer.readUInt32BE buffer 0 = Returned (clock w / 2 ^ 32)
    /\ Buffer.readUInt32BE buffer 4 = Returned (clock w mod 2 ^ 32)
    /\ EasyNoPassword.createToken crypto this username w
       = (Returned (Base62.encode (Crypto.bf_encrypt crypto key buffer)),
          after CreateCipheriv (after Pbkdf2 w))
    /\ (forall token encrypted hi lo w',
           Base62.decode token = Some encrypted ->
           List.length encrypted = 8%nat ->
           0 <= hi < 2 ^ 32 -> 0 <= lo < 2 ^ 32 ->
           Crypto.bf_decrypt crypto key encrypted
           = Buffer.be32 hi ++ Buffer.be32 lo ->
           EasyNoPassword._decrypt crypto this token username w'
           = (Returned (Js.fl (hi * 2 ^ 32 + lo)),
              after CreateDecipheriv (after Pbkdf2 w')))
    /\ (forall token encrypted w',
           Base62.decode token = Some encrypted ->
           List.length encrypted = 8%nat ->
           Crypto.bf_decrypt crypto key encrypted = buffer ->
           EasyNoPassword._decrypt crypto this token username w'
           = (Returned (clock w), after CreateDecipheriv (after Pbkdf2 w'))).
Proof.
  intros Hthis Hne Henc Hnum Hkey.
  assert (Hiv : EasyNoPassword.iv this = Buffer.alloc 8).
  { apply constructor_inv in Hthis. destruct Hthis as [_ ->]. reflexivity. }
  rewrite createKey_run in Hkey. cbn [fst] in Hkey. injection Hkey as <-.
  destruct (timestamp_buffer_round_trip (clock w) Henc Hnum)
    as (buffer & _ & -> & Hhi & Hlo & _).
  assert (Hwords : forall token encrypted hi lo w',
             Base62.decode token = Some encrypted ->
             List.length encrypted = 8%nat ->
             0 <= hi < 2 ^ 32 -> 0 <= lo < 2 ^ 32 ->
             Crypto.bf_decrypt crypto (derived_key crypto this username)
               encrypted = Buffer.be32 hi ++ Buffer.be32 lo ->
             EasyNoPassword._decrypt crypto this token username w'
             = (Returned (Js.fl (hi * 2 ^ 32 + lo)),
                after CreateDecipheriv (after Pbkdf2 w'))).
  { intros token encrypted hi lo w' Hdec Hlen Hh Hl HD.
    rewrite (decrypt_block crypto this token username encrypted w' Hiv Hdec
               Hlen); rewrite HD; [|apply words_length].
    rewrite buffer_to_timestamp_words by assumption. reflexivity. }
  eexists. split; [reflexivity|]. split; [reflexivity|].
  split; [exact Hhi|]. split; [exact Hlo|]. split; [|split].
  - unfold EasyNoPassword.createToken.
    destruct (String.eqb_spec username "") as [|_]; [contradiction|].
    unfold bind, getTime.
    rewrite (encrypt_run crypto this (clock w) username w Hiv Henc).
    reflexivity.
  - exact Hwords.
  - intros token encrypted w' Hdec Hlen HD.
    assert (Hh : 0 <= clock w / 2 ^ 32 < 2 ^ 32).
    { destruct Henc as [H0 H1]. change Js.UINT32_CAPACITY with (2 ^ 32) in H1.
      split; [apply Z.div_pos; lia|].
      apply Z.div_lt_upper_bound; [lia|].
      change (2 ^ 32) with 4294967296 in *. lia. }
    assert (Hl : 0 <= clock w mod 2 ^ 32 < 2 ^ 32)
      by (apply Z.mod_pos_bound; lia).
    rewrite (Hwords token encrypted _ _ w' Hdec Hlen Hh Hl HD).
    rewrite Z.mul_comm, <- Z.div_mod by lia. rewrite Hnum. reflexivity.
Qed.

Lemma createToken_timestamp_words_witness :
  EasyNoPassword.constructor "shh-this-is-our-secret" Js.Undefined
  = Returned readme_instance
  /\ "frani"%string <> ""%string
  /\ encodable (clock (World 1762000000000 []))
  /\ Js.fl (clock (World 1762000000000 []))
     = clock (World 1762000000000 [])
  /\ fst (EasyNoPassword._createKey null_crypto readme_instance "frani"
            (World 1762000000000 []))
     = Returned (derived_key null_crypto readme_instance "frani")
  /\ exists buffer,
      buffer = Buffer.be32 (clock (World 1762000000000 []) / 2 ^ 32)
               ++ Buffer.be32 (clock (World 1762000000000 []) mod 2 ^ 32)
      /\ List.length buffer = 8%nat
      /\ Buffer.readUInt32BE buffer 0
         = Returned (clock (World 1762000000000 []) / 2 ^ 32)
      /\ Buffer.readUInt32BE buffer 4
         = Returned (clock (World 1762000000000 []) mod 2 ^ 32)
      /\ EasyNoPassword.createToken null_crypto readme_instance "frani"
           (World 1762000000000 [])
         = (Returned
              (Base62.encode
                 (Crypto.bf_encrypt null_crypto
                    (derived_key null_crypto readme_instance "frani") buffer)),
            after CreateCipheriv (after Pbkdf2 (World 1762000000000 [])))
      /\ (forall token encrypted hi lo w',
             Base62.decode token = Some encrypted ->
             List.length encrypted = 8%nat ->
             0 <= hi < 2 ^ 32 -> 0 <= lo < 2 ^ 32 ->
             Crypto.bf_decrypt null_crypto
               (derived_key null_crypto readme_instance "frani") encrypted
             = Buffer.be32 hi ++ Buffer.be32 lo ->
             EasyNoPassword._decrypt null_crypto readme_instance token
               "frani" w'
             = (Returned (Js.fl (hi * 2 ^ 32 + lo)),
                after CreateDecipheriv (after Pbkdf2 w')))
      /\ (forall token encrypted w',
             Base62.decode token = Some encrypted ->
             List.length encrypted = 8%nat ->
             Crypto.bf_decrypt null_crypto
               (derived_key null_crypto readme_instance "frani") encrypted
             = buffer ->
             EasyNoPassword._decrypt null_crypto readme_instance token
               "frani" w'
             = (Returned (clock (World 1762000000000 [])),
                after CreateDecipheriv (after Pbkdf2 w'))).
Proof.
  assert (Henc : encodable (clock (World 1762000000000 [])))
    by (unfold encodable; vm_compute; split; discriminate).
  split; [reflexivity|]. split; [discriminate|]. split; [exact Henc|].
  split; [reflexivity|]. split; [reflexivity|].
  apply (createToken_timestamp_words null_crypto "shh-this-is-our-secret"
           Js.Undefined readme_instance "frani"
           (derived_key null_crypto readme_instance "frani")
           (World 1762000000000 [])).
  - reflexivity.
  - discriminate.
  - exact Henc.
  - reflexivity.
  - reflexivity.
Defined.

(** ** Counting keys *)
Section Pigeonhole.

Lemma in_all_bytes (b : byte) : In b all_bytes.
Proof.
  unfold all_bytes. apply in_map_iff.
  exists (Z.to_nat (Buffer.Z_of_byte b)).
  pose proof (Z_of_byte_range b) as Hr. split.
  - rewrite Z2Nat.id by lia. apply byte_of_Z_of_byte.
  - apply in_seq. lia.
Qed.

Lemma in_buffers (l : Buffer.t) : In l (buffers (List.length l)).
Proof.
  induction l as [|b l IH]; [left; reflexivity|].
  cbn [List.length buffers]. apply in_flat_map.
  exists b. split; [apply in_all_bytes|]. apply in_map. exact IH.
Qed.

Lemma identifier_length (width : nat) (n : N) :
  String.length (identifier width n) = width.
Proof.
  revert n. induction width as [|k IH]; intros n; [reflexivity|].
  simpl. rewrite IH. reflexivity.
Qed.

(** Numbers below [2 ^ width] have different identifiers. *)
Lemma identifier_inj (width : nat) (n m : N) :
  (n < 2 ^ N.of_nat width)%N -> (m < 2 ^ N.of_nat width)%N ->
  identifier width n = identifier width m -> n = m.
Proof.
  revert n m. induction width as [|k IH]; intros n m Hn Hm H.
  - change (2 ^ N.of_nat 0)%N with 1%N in Hn, Hm. lia.
  - rewrite Nat2N.inj_succ, N.pow_succ_r' in Hn, Hm.
    cbn [identifier] in H. injection H as Hc Ht.
    assert (Hodd : N.odd n = N.odd m)
      by (destruct (N.odd n), (N.odd m); try reflexivity; discriminate Hc).
    assert (Hhalf : N.div2 n = N.div2 m).
    { apply IH; [| |exact Ht]; rewrite N.div2_div;
        apply N.Div0.div_lt_upper_bound; lia. }
    rewrite (N.div2_odd n), (N.div2_odd m), Hodd, Hhalf. reflexivity.
Qed.

(** There are [256 ^ n] byte sequences of length [n]. *)
Lemma buffers_length (n : nat) :
  N.of_nat (List.length (buffers n)) = (256 ^ N.of_nat n)%N.
Proof.
  induction n as [|k IH]; [reflexivity|].
  cbn [buffers].
  rewrite flat_map_constant_length with (c := List.length (buffers k)).
  - rewrite Nat2N.inj_mul, IH, Nat2N.inj_succ, N.pow_succ_r'.
    f_equal.
  - intros b _. apply length_map.
Qed.

Context {A B : Type}.
Variable eq_dec : forall x y : B, {x = y} + {x <> y}.
Variable f : A -> B.

Lemma repeated_image (l : list A) :
  NoDup (map f l)
  \/ exists l1 x l2 y l3, l = l1 ++ x :: l2 ++ y :: l3 /\ f x = f y.
Proof.
  induction l as [|a l [IH|IH]].
  - left. constructor.
  - destruct (in_dec eq_dec (f a) (map f l)) as [Hin|Hout].
    + right. apply in_map_iff in Hin. destruct Hin as (y & Hy & Hiny).
      apply in_split in Hiny. destruct Hiny as (l2 & l3 & ->).
      exists [], a, l2, y, l3. split; [reflexivity|]. symmetry. exact Hy.
    + left. cbn [map]. constructor; assumption.
  - right. destruct IH as (l1 & x & l2 & y & l3 & -> & Hxy).
    exists (a :: l1), x, l2, y, l3. split; [reflexivity|exact Hxy].
Qed.

(** More arguments than values: two of them have the same image. *)
Lemma pigeonhole (l : list A) (univ : list B) :
  NoDup l -> (forall x, In x l -> In (f x) univ) ->
  (List.length univ < List.length l)%nat ->
  exists x y, In x l /\ In y l /\ x <> y /\ f x = f y.
Proof.
  intros Hnd Hin Hlen.
  destruct (repeated_image l) as [Himg|(l1 & x & l2 & y & l3 & -> & Hxy)].
  - exfalso.
    assert (Hle : (List.length (map f l) <= List.length univ)%nat).
    { apply NoDup_incl_length; [exact Himg|].
      intros z Hz. apply in_map_iff in Hz. destruct Hz as (x & <- & Hx).
      apply Hin. exact Hx. }
    rewrite length_map in Hle. lia.
  - exists x, y. split; [apply in_or_app; right; left; reflexivity|].
    split; [apply in_or_app; right; right; apply in_or_app; right; left;
            reflexivity|].
    split; [|exact Hxy].
    apply NoDup_remove_2 in Hnd. intros ->. apply Hnd.
    apply in_or_app. right. apply in_or_app. right. left. reflexivity.
Qed.

End Pigeonhole.

(** More identifiers of 129 letters than keys of 16 bytes. *)
Lemma derived_key_collision_129 (crypto : Crypto.t) (this : EasyNoPassword.t) :
  (forall password salt iterations digest,
      List.length (Crypto.pbkdf2 crypto password salt iterations 16 digest)
      = 16%nat) ->
  exists u1 u2,
    String.length u1 = 129%nat /\ String.length u2 = 129%nat /\ u1 <> u2
    /\ derived_key crypto this u1 = derived_key crypto this u2.
Proof.
  intros Hlen.
  pose proof (buffers_length 16) as Hcount.
  change (256 ^ N.of_nat 16)%N
    with 340282366920938463463374607431768211456%N in Hcount.
  remember (buffers 16) as univ eqn:Huniv.
  remember (List.length univ) as K eqn:HK.
  destruct (pigeonhole (list_eq_dec Byte.byte_eq_dec)
              (derived_key crypto this)
              (map (fun i => identifier 129 (N.of_nat i)) (seq 0 (S K))) univ)
    as (u1 & u2 & Hin1 & Hin2 & Hne & Hkey).
  - apply NoDup_map_NoDup_ForallPairs; [|apply seq_NoDup].
    intros i j Hi Hj H. apply in_seq in Hi. apply in_seq in Hj.
    apply Nat2N.inj. apply (identifier_inj 129); [| |exact H];
      change (2 ^ N.of_nat 129)%N
        with 680564733841876926926749214863536422912%N; lia.
  - intros u _. subst univ.
    assert (Hk : List.length (derived_key crypto this u) = 16%nat).
    { unfold derived_key.
      destruct (Nat.eqb (Crypto.pbkdf2_length crypto) 5); apply Hlen. }
    rewrite <- Hk. apply in_buffers.
  - rewrite length_map, length_seq, HK. apply Nat.lt_succ_diag_r.
  - exists u1, u2.
    apply in_map_iff in Hin1. destruct Hin1 as (n1 & <- & _).
    apply in_map_iff in Hin2. destruct Hin2 as (n2 & <- & _).
    repeat split; try apply identifier_length; assumption.
Qed.

Lemma derived_key_collision (crypto : Crypto.t) (this : EasyNoPassword.t) :
  (forall password salt iterations digest,
      List.length (Crypto.pbkdf2 crypto password salt iterations 16 digest)
      = 16%nat) ->
  exists u1 u2,
    u1 <> ""%string /\ u2 <> ""%string /\ u1 <> u2
    /\ derived_key crypto this u1 = derived_key crypto this u2.
Proof.
  intros Hlen.
  destruct (derived_key_collision_129 crypto this Hlen)
    as (u1 & u2 & H1 & H2 & Hne & Hkey).
  exists u1, u2. repeat split; try assumption.
  - intros ->. discriminate H1.
  - intros ->. discriminate H2.
Qed.

(** C6, as the code has it. Under a fixed secret the key is a function of
    the user identifier alone, but not an injective one: the keys have 16
    bytes, so some two distinct identifiers, already among those of 129
    characters, are given the same key. *)
Theorem createKey_collision (crypto : Crypto.t) (this : EasyNoPassword.t) :
  (forall password salt iterations digest,
      List.length (Crypto.pbkdf2 crypto password salt iterations 16 digest)
      = 16%nat) ->
  (forall username w w',
      fst (EasyNoPassword._createKey crypto this username w)
      = fst (EasyNoPassword._createKey crypto this username w'))
  /\ exists u1 u2 key,
      String.length u1 = 129%nat /\ String.length u2 = 129%nat /\ u1 <> u2
      /\ List.length key = 16%nat
      /\ forall w,
          fst (EasyNoPassword._createKey crypto this u1 w) = Returned key
          /\ fst (EasyNoPassword._createKey crypto this u2 w) = Returned key.
Proof.
  intros Hlen. split.
  - intros username w w'. rewrite !createKey_run. reflexivity.
  - destruct (derived_key_collision_129 crypto this Hlen)
      as (u1 & u2 & H1 & H2 & Hne & Hkey).
    exists u1, u2, (derived_key crypto this u1).
    repeat split; try assumption.
    + unfold derived_key.
      destruct (Nat.eqb (Crypto.pbkdf2_length crypto) 5); apply Hlen.
    + rewrite createKey_run. reflexivity.
    + rewrite createKey_run, Hkey. reflexivity.
Qed.

Lemma createKey_collision_witness :
  (forall password salt iterations digest,
      List.length (Crypto.pbkdf2 null_crypto password salt iterations 16 digest)
      = 16%nat)
  /\ (forall username w w',
         fst (EasyNoPassword._createKey null_crypto readme_instance username w)
         = fst (EasyNoPassword._createKey null_crypto readme_instance
                  username w'))
  /\ exists u1 u2 key,
      String.length u1 = 129%nat /\ String.length u2 = 129%nat /\ u1 <> u2
      /\ List.length key = 16%nat
      /\ forall w,
          fst (EasyNoPassword._createKey null_crypto readme_instance u1 w)
          = Returned key
          /\ fst (EasyNoPassword._createKey null_crypto readme_instance u2 w)
             = Returned key.
Proof.
  split; [intros; apply null_pbkdf2_length|].
  apply (createKey_collision null_crypto readme_instance).
  intros. apply null_pbkdf2_length.
Defined.

(** C6 fails as it is stated, whatever the key derivation computes: with no
    PBKDF2 that returns 16 bytes, and under no secret, is [_createKey]
    injective in the user identifier. *)
Lemma createKey_injective_counterexample :
  ~ (exists (crypto : Crypto.t) (this : EasyNoPassword.t),
        (forall password salt iterations digest,
            List.length
              (Crypto.pbkdf2 crypto password salt iterations 16 digest)
            = 16%nat)
        /\ forall (u1 u2 : string) (w : world),
            u1 <> u2 ->
            fst (EasyNoPassword._createKey crypto this u1 w)
            <> fst (EasyNoPassword._createKey crypto this u2 w)).
Proof.
  intros (crypto & this & Hlen & Hinj).
  destruct (derived_key_collision_129 crypto this Hlen)
    as (u1 & u2 & _ & _ & Hne & Hkey).
  apply (Hinj u1 u2 (World 0 []) Hne).
  rewrite !createKey_run, Hkey. reflexivity.
Qed.

(** ** Concrete runs *)

Example encode_zero_block : Base62.encode (Buffer.alloc 8) = "00000000"%string.
Proof. vm_compute. reflexivity. Qed.

Example encode_ff_block : Base62.encode (repeat xff 8) = "LygHa16AHYF"%string.
Proof. vm_compute. reflexivity. Qed.

Example decode_ff_block : Base62.decode "LygHa16AHYF" = Some (repeat xff 8).
Proof. vm_compute. reflexivity. Qed.

Example decode_malformed : Base62.decode "not-a-valid-base62-string!!" = None.
Proof. vm_compute. reflexivity. Qed.

(** A clock before 1970 or past the 32-bit high word: the first write of
    [_encrypt] is refused. *)
Example createToken_negative_clock :
  EasyNoPassword.createToken null_crypto readme_instance "frani" (World (-1) [])
  = (Thrown OutOfRange, World (-1) [Pbkdf2]).
Proof. vm_compute. reflexivity. Qed.

Example createToken_empty_username :
  EasyNoPassword.createToken null_crypto readme_instance ""
    (World 1762000000000 [])
  = (Thrown IdentifierRequired, World 1762000000000 []).
Proof. vm_compute. reflexivity. Qed.

Example constructor_empty_secret :
  EasyNoPassword.constructor "" Js.Undefined = Thrown SecretRequired.
Proof. reflexivity. Qed.

(** A token is no longer valid when it is exactly [maxTokenAge] old, and not
    yet at the instant of its creation. *)
Example isValid_at_maxTokenAge :
  fst (EasyNoPassword.isValid null_crypto readme_instance "00V1IiQwi" "frani"
         (World (1762000000000 + 900000) [])) = Returned false.
Proof. vm_compute. reflexivity. Qed.

Example isValid_at_creation :
  fst (EasyNoPassword.isValid null_crypto readme_instance "00V1IiQwi" "frani"
         (World 1762000000000 [])) = Returned false.
Proof. vm_compute. reflexivity. Qed.

(** Doubles above 2^53: odd integers are rounded to even ones. *)
Example fl_above_2_53 : Js.fl (2 ^ 53 + 1) = 2 ^ 53 /\ Js.fl (2 ^ 53 + 3) = 2 ^ 53 + 4.
Proof. vm_compute. split; reflexivity. Qed.

(** With the default window, a malformed token is reported valid while the
    clock is within 15 minutes of the epoch. *)
Example isValid_malformed_near_epoch :
  fst (EasyNoPassword.isValid null_crypto readme_instance
         "not-a-valid-base62-string!!" "alice" (World 1 [])) = Returned true.
Proof. vm_compute. reflexivity. Qed.

(** * Further properties of the class *)

(** ** Shared steps *)

Lemma time_value_exact (t : Z) : Js.time_value t -> Js.fl t = t.
Proof.
  intros [Hlo Hhi]. unfold Js.MAX_TIME in *. apply fl_exact.
  change (2 ^ 53) with 9007199254740992. lia.
Qed.

Lemma timestamp_to_buffer_refused (timestamp : Z) :
  ~ encodable timestamp ->
  EasyNoPassword.timestamp_to_buffer timestamp = Thrown OutOfRange.
Proof.
  intros Hno.
  unfold EasyNoPassword.timestamp_to_buffer, Buffer.writeUInt32BE at 1.
  cbv zeta. rewrite div_in_range.
  destruct (Z.leb_spec 0 timestamp);
    destruct (Z.leb_spec timestamp (0xffffffff * Js.UINT32_CAPACITY));
    cbn [andb]; try reflexivity.
  exfalso. apply Hno. split; assumption.
Qed.

Lemma buffer_to_timestamp_block (block rest : Buffer.t) :
  List.length block = 8%nat ->
  exists timestamp,
    EasyNoPassword.buffer_to_timestamp (block ++ rest) = Returned timestamp
    /\ EasyNoPassword.buffer_to_timestamp block = Returned timestamp.
Proof.
  intros H. destruct (block8 block H) as (b0&b1&b2&b3&b4&b5&b6&b7&->).
  eexists. split; reflexivity.
Qed.

(** What [_decrypt] recovers from the token that [_encrypt] makes of a
    timestamp, under any username with the same key. *)
Lemma decrypt_created_token (crypto : Crypto.t) (this : EasyNoPassword.t)
      (timestamp : Z) (username username' : string) (w : world) :
  block_cipher crypto ->
  EasyNoPassword.iv this = Buffer.alloc 8 ->
  encodable timestamp ->
  Js.fl timestamp = timestamp ->
  derived_key crypto this username' = derived_key crypto this username ->
  EasyNoPassword._decrypt crypto this
    (Base62.encode
       (Crypto.bf_encrypt crypto (derived_key crypto this username)
          (Buffer.be32 (timestamp / Js.UINT32_CAPACITY)
             ++ Buffer.be32 (timestamp mod Js.UINT32_CAPACITY))))
    username' w
  = (Returned timestamp, after CreateDecipheriv (after Pbkdf2 w)).
Proof.
  intros Hbf Hiv Henc Hnum Hkey.
  set (buffer := Buffer.be32 (timestamp / Js.UINT32_CAPACITY)
                   ++ Buffer.be32 (timestamp mod Js.UINT32_CAPACITY)).
  destruct (Hbf (derived_key crypto this username) buffer (words_length _ _))
    as [HlenE HDE].
  rewrite (decrypt_block crypto this _ username'
             (Crypto.bf_encrypt crypto (derived_key crypto this username)
                buffer) w Hiv (decode_encode _) HlenE);
    rewrite Hkey, HDE; [|apply words_length].
  f_equal. subst buffer.
  destruct Henc as [H0 H1]. change Js.UINT32_CAPACITY with (2 ^ 32) in *.
  rewrite buffer_to_timestamp_words.
  - change Js.UINT32_CAPACITY with (2 ^ 32).
    rewrite Z.mul_comm, <- Z.div_mod by lia. rewrite Hnum. reflexivity.
  - split; [apply Z.div_pos; lia|].
    apply Z.div_lt_upper_bound; [lia|].
    change (2 ^ 32) with 4294967296 in *. lia.
  - apply Z.mod_pos_bound. lia.
Qed.

Lemma constructor_iv (secret : string) (maxTokenAge : Js.arg)
      (this : EasyNoPassword.t) :
  EasyNoPassword.constructor secret maxTokenAge = Returned this ->
  EasyNoPassword.iv this = Buffer.alloc 8.
Proof. intros H. apply constructor_inv in H. destruct H as [_ ->]. reflexivity. Qed.

(** ** Creating tokens *)

(** X1. For an instance built by the constructor, [createToken] hands a
    token to its callback exactly when the username is not empty and the
    clock reading is one that [writeUInt32BE] accepts for the high word
    (0 up to 0xffffffff * 2^32), whatever the key derivation and the cipher
    compute. *)
Theorem createToken_succeeds_iff (crypto : Crypto.t) (secret : string)
        (maxTokenAge : Js.arg) (this : EasyNoPassword.t) (username : string)
        (w : world) :
  EasyNoPassword.constructor secret maxTokenAge = Returned this ->
  (exists token,
      fst (EasyNoPassword.createToken crypto this username w) = Returned token)
  <-> username <> ""%string /\ encodable (clock w).
Proof.
  intros Hthis. pose proof (constructor_iv _ _ _ Hthis) as Hiv. split.
  - intros [token Htok].
    destruct (createToken_inv crypto this username token w Hiv Htok)
      as (Hne & Henc & _).
    split; assumption.
  - intros [Hne Henc]. unfold EasyNoPassword.createToken.
    destruct (String.eqb_spec username "") as [|_]; [contradiction|].
    unfold bind, getTime.
    rewrite (encrypt_run crypto this (clock w) username w Hiv Henc).
    eexists. reflexivity.
Qed.

Lemma createToken_succeeds_iff_witness :
  EasyNoPassword.constructor "shh-this-is-our-secret" Js.Undefined
  = Returned readme_instance
  /\ ((exists token,
          fst (EasyNoPassword.createToken null_crypto readme_instance "frani"
                 (World 1762000000000 [])) = Returned token)
      <-> "frani"%string <> ""%string
          /\ encodable (clock (World 1762000000000 []))).
Proof.
  split; [reflexivity|].
  apply (createToken_succeeds_iff null_crypto "shh-this-is-our-secret"
           Js.Undefined readme_instance "frani" (World 1762000000000 [])).
  reflexivity.
Defined.

(** X2. When the clock reading is negative or above 0xffffffff * 2^32,
    [createToken] for a non-empty username ends in ERR_OUT_OF_RANGE: the key
    has been derived by then, and no cipher is created. *)
Theorem createToken_out_of_range (crypto : Crypto.t) (this : EasyNoPassword.t)
        (username : string) (w : world) :
  username <> ""%string ->
  ~ encodable (clock w) ->
  EasyNoPassword.createToken crypto this username w
  = (Thrown OutOfRange, after Pbkdf2 w).
Proof.
  intros Hne Hno. unfold EasyNoPassword.createToken.
  destruct (String.eqb_spec username "") as [|_]; [contradiction|].
  unfold bind at 1, getTime.
  unfold EasyNoPassword._encrypt, bind. rewrite createKey_run. unfold lift.
  rewrite (timestamp_to_buffer_refused _ Hno). reflexivity.
Qed.

Lemma createToken_out_of_range_witness :
  "frani"%string <> ""%string
  /\ ~ encodable (clock (World (-1) []))
  /\ EasyNoPassword.createToken null_crypto readme_instance "frani"
       (World (-1) [])
     = (Thrown OutOfRange, after Pbkdf2 (World (-1) [])).
Proof.
  assert (Hno : ~ encodable (clock (World (-1) [])))
    by (intros [H _]; apply H; reflexivity).
  split; [discriminate|]. split; [exact Hno|].
  apply (createToken_out_of_range null_crypto readme_instance "frani"
           (World (-1) [])); [discriminate|exact Hno].
Defined.

(** X3. [_decrypt] undoes [_encrypt]: for every timestamp that is a double
    and that [_encrypt] can write, the token [_encrypt] makes for a username
    is turned back into that very timestamp by [_decrypt] for the same
    username, after one key derivation and one decipher. *)
Theorem decrypt_encrypt (crypto : Crypto.t) (secret : string)
        (maxTokenAge : Js.arg) (this : EasyNoPassword.t)
        (timestamp : Z) (username : string) (w w' : world) :
  block_cipher crypto ->
  EasyNoPassword.constructor secret maxTokenAge = Returned this ->
  encodable timestamp ->
  Js.fl timestamp = timestamp ->
  exists token,
    fst (EasyNoPassword._encrypt crypto this timestamp username w)
    = Returned token
    /\ EasyNoPassword._decrypt crypto this token username w'
       = (Returned timestamp, after CreateDecipheriv (after Pbkdf2 w')).
Proof.
  intros Hbf Hthis Henc Hnum.
  pose proof (constructor_iv _ _ _ Hthis) as Hiv.
  rewrite (encrypt_run crypto this timestamp username w Hiv Henc).
  eexists. split; [reflexivity|].
  apply decrypt_created_token; try assumption. reflexivity.
Qed.

Lemma decrypt_encrypt_witness :
  block_cipher null_crypto
  /\ EasyNoPassword.constructor "shh-this-is-our-secret" Js.Undefined
     = Returned readme_instance
  /\ encodable (2 ^ 60)
  /\ Js.fl (2 ^ 60) = 2 ^ 60
  /\ exists token,
      fst (EasyNoPassword._encrypt null_crypto readme_instance (2 ^ 60)
             "frani" (World 0 [])) = Returned token
      /\ EasyNoPassword._decrypt null_crypto readme_instance token "frani"
           (World 5 [])
         = (Returned (2 ^ 60),
            after CreateDecipheriv (after Pbkdf2 (World 5 []))).
Proof.
  assert (Henc : encodable (2 ^ 60))
    by (unfold encodable; vm_compute; split; discriminate).
  split; [exact null_block_cipher|]. split; [reflexivity|].
  split; [exact Henc|]. split; [vm_compute; reflexivity|].
  apply (decrypt_encrypt null_crypto "shh-this-is-our-secret" Js.Undefined
           readme_instance (2 ^ 60) "frani" (World 0 []) (World 5 [])).
  - exact null_block_cipher.
  - reflexivity.
  - exact Henc.
  - vm_compute. reflexivity.
Defined.

(** X4. The whole life of a token: a token that [createToken] produced at
    time [t0] is reported valid by [isValid], for the same username, at time
    [t1] exactly when [0 < t1 - t0 < maxTokenAge]; so it is not yet valid at
    the instant of its creation, and no longer valid from [t0 + maxTokenAge]
    on. *)
Theorem created_token_valid_iff (crypto : Crypto.t) (secret : string)
        (maxTokenAge : Js.arg) (this : EasyNoPassword.t)
        (username token : string) (w w' : world) :
  block_cipher crypto ->
  EasyNoPassword.constructor secret maxTokenAge = Returned this ->
  Js.time_value (clock w) ->
  Js.time_value (clock w') ->
  fst (EasyNoPassword.createToken crypto this username w) = Returned token ->
  exists valid : bool,
    fst (EasyNoPassword.isValid crypto this token username w') = Returned valid
    /\ (valid = true <->
        0 < clock w' - clock w < EasyNoPassword.maxTokenAge this).
Proof.
  intros Hbf Hthis Hw Hw' Htok.
  pose proof (constructor_iv _ _ _ Hthis) as Hiv.
  destruct (createToken_inv crypto this username token w Hiv Htok)
    as (Hne & Henc & ->).
  pose proof (decrypt_created_token crypto this (clock w) username username
                w' Hbf Hiv Henc (time_value_exact _ Hw) eq_refl) as Hdec.
  rewrite (isValid_run _ _ _ _ _ _ _ Hne Hdec).
  rewrite window_exact by (try exact Hw'; destruct Henc; lia).
  eexists. split; [reflexivity|].
  destruct (Z.ltb_spec 0 (clock w' - clock w));
    destruct (Z.ltb_spec (clock w' - clock w)
                (EasyNoPassword.maxTokenAge this));
    cbn [andb]; split; intros; try discriminate; try reflexivity; lia.
Qed.

Lemma created_token_valid_iff_witness :
  block_cipher null_crypto
  /\ EasyNoPassword.constructor "shh-this-is-our-secret" Js.Undefined
     = Returned readme_instance
  /\ Js.time_value (clock (World 1762000000000 []))
  /\ Js.time_value (clock (World 1762000900000 []))
  /\ fst (EasyNoPassword.createToken null_crypto readme_instance "frani"
            (World 1762000000000 [])) = Returned "00V1IiQwi"%string
  /\ exists valid : bool,
      fst (EasyNoPassword.isValid null_crypto readme_instance "00V1IiQwi"
             "frani" (World 1762000900000 [])) = Returned valid
      /\ (valid = true <->
          0 < clock (World 1762000900000 []) - clock (World 1762000000000 [])
          < EasyNoPassword.maxTokenAge readme_instance).
Proof.
  assert (Ht : forall t, (Z.abs t <=? Js.MAX_TIME) = true -> Js.time_value t).
  { intros t H. apply Z.leb_le in H. unfold Js.time_value. lia. }
  split; [exact null_block_cipher|]. split; [reflexivity|].
  split; [apply Ht; reflexivity|]. split; [apply Ht; reflexivity|].
  split; [vm_compute; reflexivity|].
  apply (created_token_valid_iff null_crypto "shh-this-is-our-secret"
           Js.Undefined readme_instance "frani" "00V1IiQwi"
           (World 1762000000000 []) (World 1762000900000 [])).
  - exact null_block_cipher.
  - reflexivity.
  - apply Ht. reflexivity.
  - apply Ht. reflexivity.
  - vm_compute. reflexivity.
Defined.

(** X5. Tokens issued to one user at different times are different: if
    [createToken] produces the same token for a username at two clock
    readings, the readings are equal. *)
Theorem created_tokens_differ (crypto : Crypto.t) (secret : string)
        (maxTokenAge : Js.arg) (this : EasyNoPassword.t)
        (username token : string) (w1 w2 : world) :
  block_cipher crypto ->
  EasyNoPassword.constructor secret maxTokenAge = Returned this ->
  Js.time_value (clock w1) ->
  Js.time_value (clock w2) ->
  fst (EasyNoPassword.createToken crypto this username w1) = Returned token ->
  fst (EasyNoPassword.createToken crypto this username w2) = Returned token ->
  clock w1 = clock w2.
Proof.
  intros Hbf Hthis Ht1 Ht2 Htok1 Htok2.
  pose proof (constructor_iv _ _ _ Hthis) as Hiv.
  destruct (createToken_inv crypto this username token w1 Hiv Htok1)
    as (_ & Henc1 & E1).
  destruct (createToken_inv crypto this username token w2 Hiv Htok2)
    as (_ & Henc2 & E2).
  pose proof (decrypt_created_token crypto this (clock w1) username username
                w1 Hbf Hiv Henc1 (time_value_exact _ Ht1) eq_refl) as D1.
  pose proof (decrypt_created_token crypto this (clock w2) username username
                w1 Hbf Hiv Henc2 (time_value_exact _ Ht2) eq_refl) as D2.
  rewrite <- E1 in D1. rewrite <- E2, D1 in D2.
  injection D2 as H. exact H.
Qed.

Lemma created_tokens_differ_witness :
  block_cipher null_crypto
  /\ EasyNoPassword.constructor "shh-this-is-our-secret" Js.Undefined
     = Returned readme_instance
  /\ Js.time_value (clock (World 1762000000000 []))
  /\ Js.time_value (clock (World 1762000000000 [Pbkdf2]))
  /\ fst (EasyNoPassword.createToken null_crypto readme_instance "frani"
            (World 1762000000000 [])) = Returned "00V1IiQwi"%string
  /\ fst (EasyNoPassword.createToken null_crypto readme_instance "frani"
            (World 1762000000000 [Pbkdf2])) = Returned "00V1IiQwi"%string
  /\ clock (World 1762000000000 []) = clock (World 1762000000000 [Pbkdf2]).
Proof.
  assert (Ht : Js.time_value 1762000000000)
    by (unfold Js.time_value; vm_compute; split; discriminate).
  split; [exact null_block_cipher|]. split; [reflexivity|].
  split; [exact Ht|]. split; [exact Ht|].
  split; [vm_compute; reflexivity|]. split; [vm_compute; reflexivity|].
  apply (created_tokens_differ null_crypto "shh-this-is-our-secret"
           Js.Undefined readme_instance "frani" "00V1IiQwi"
           (World 1762000000000 []) (World 1762000000000 [Pbkdf2])).
  - exact null_block_cipher.
  - reflexivity.
  - exact Ht.
  - exact Ht.
  - vm_compute. reflexivity.
  - vm_compute. reflexivity.
Defined.

(** X6. Tokens are bound to the derived key, not to the identifier: some
    two distinct non-empty identifiers are interchangeable, every token
    that [createToken] issues to the first being accepted by [isValid] for
    the second within the window. *)
Theorem interchangeable_identifiers (crypto : Crypto.t) (secret : string)
        (maxTokenAge : Js.arg) (this : EasyNoPassword.t) :
  block_cipher crypto ->
  (forall password salt iterations digest,
      List.length (Crypto.pbkdf2 crypto password salt iterations 16 digest)
      = 16%nat) ->
  EasyNoPassword.constructor secret maxTokenAge = Returned this ->
  exists u1 u2,
    u1 <> ""%string /\ u2 <> ""%string /\ u1 <> u2
    /\ forall token w w',
        fst (EasyNoPassword.createToken crypto this u1 w) = Returned token ->
        Js.time_value (clock w) ->
        Js.time_value (clock w') ->
        0 < clock w' - clock w < EasyNoPassword.maxTokenAge this ->
        fst (EasyNoPassword.isValid crypto this token u2 w') = Returned true.
Proof.
  intros Hbf Hlen Hthis.
  pose proof (constructor_iv _ _ _ Hthis) as Hiv.
  destruct (derived_key_collision crypto this Hlen)
    as (u1 & u2 & H1 & H2 & Hne & Hkey).
  exists u1, u2. repeat split; try assumption.
  intros token w w' Htok Hw Hw' Hwin.
  destruct (createToken_inv crypto this u1 token w Hiv Htok)
    as (_ & Henc & ->).
  pose proof (decrypt_created_token crypto this (clock w) u1 u2 w' Hbf Hiv
                Henc (time_value_exact _ Hw) (eq_sym Hkey)) as Hdec.
  rewrite (isValid_run _ _ _ _ _ _ _ H2 Hdec).
  rewrite window_exact by (try exact Hw'; destruct Henc; lia).
  cbn [fst]. f_equal.
  destruct (Z.ltb_spec 0 (clock w' - clock w)); [|lia].
  destruct (Z.ltb_spec (clock w' - clock w)
              (EasyNoPassword.maxTokenAge this)); [|lia].
  reflexivity.
Qed.

Lemma interchangeable_identifiers_witness :
  block_cipher null_crypto
  /\ (forall password salt iterations digest,
         List.length
           (Crypto.pbkdf2 null_crypto password salt iterations 16 digest)
         = 16%nat)
  /\ EasyNoPassword.constructor "shh-this-is-our-secret" Js.Undefined
     = Returned readme_instance
  /\ exists u1 u2,
      u1 <> ""%string /\ u2 <> ""%string /\ u1 <> u2
      /\ forall token w w',
          fst (EasyNoPassword.createToken null_crypto readme_instance u1 w)
          = Returned token ->
          Js.time_value (clock w) ->
          Js.time_value (clock w') ->
          0 < clock w' - clock w
          < EasyNoPassword.maxTokenAge readme_instance ->
          fst (EasyNoPassword.isValid null_crypto readme_instance token u2 w')
          = Returned true.
Proof.
  split; [exact null_block_cipher|].
  split; [intros; apply null_pbkdf2_length|]. split; [reflexivity|].
  apply (interchangeable_identifiers null_crypto "shh-this-is-our-secret"
           Js.Undefined readme_instance).
  - exact null_block_cipher.
  - intros. apply null_pbkdf2_length.
  - reflexivity.
Defined.

(** ** Checking tokens *)

(** X7. [isValid] reports a token valid only when the clock reading is
    positive and the window is more than one millisecond wide: with a
    window of 1, 0 or a negative number of milliseconds, or with a clock at
    or before the epoch, no token is ever valid. *)
Theorem isValid_true_only_if (crypto : Crypto.t) (this : EasyNoPassword.t)
        (token username : string) (w : world) :
  fst (EasyNoPassword.isValid crypto this token username w) = Returned true ->
  0 < clock w /\ 1 < EasyNoPassword.maxTokenAge this.
Proof.
  unfold EasyNoPassword.isValid.
  destruct (String.eqb_spec username "") as [|Hne]; [discriminate|].
  unfold bind.
  destruct (EasyNoPassword._decrypt crypto this token username w)
    as [[timestamp|e] w1] eqn:Hdec; [|discriminate].
  destruct (decrypt_result _ _ _ _ _ _ _ Hdec) as [Hts Hclock].
  unfold getTime, ret. cbn [fst]. rewrite Hclock.
  intros H. injection H as H. apply andb_prop in H. destruct H as [Hlt Hgt].
  apply Z.ltb_lt in Hlt. rewrite Z.gtb_ltb in Hgt. apply Z.ltb_lt in Hgt.
  unfold Js.sub in *.
  destruct (Z_le_gt_dec (clock w - timestamp) 0) as [Hle|Hpos].
  - pose proof (fl_nonpos _ Hle). lia.
  - lia.
Qed.

Lemma isValid_true_only_if_witness :
  fst (EasyNoPassword.isValid null_crypto readme_instance "00V1IiQwi" "frani"
         (World 1762000000500 [])) = Returned true
  /\ 0 < clock (World 1762000000500 [])
  /\ 1 < EasyNoPassword.maxTokenAge readme_instance.
Proof.
  split; [vm_compute; reflexivity|].
  apply (isValid_true_only_if null_crypto readme_instance "00V1IiQwi" "frani"
           (World 1762000000500 [])).
  vm_compute. reflexivity.
Defined.

(** X8. For a token whose payload is exactly one 8-byte block, [isValid]
    hands a boolean to its callback, after one key derivation and one
    decipher: nothing is thrown, whatever the block deciphers to. *)
Theorem isValid_one_block (crypto : Crypto.t) (secret : string)
        (maxTokenAge : Js.arg) (this : EasyNoPassword.t)
        (token username : string) (encrypted : Buffer.t) (w : world) :
  (forall key block,
      List.length block = 8%nat ->
      List.length (Crypto.bf_decrypt crypto key block) = 8%nat) ->
  EasyNoPassword.constructor secret maxTokenAge = Returned this ->
  username <> ""%string ->
  Base62.decode token = Some encrypted ->
  List.length encrypted = 8%nat ->
  exists valid : bool,
    EasyNoPassword.isValid crypto this token username w
    = (Returned valid, after CreateDecipheriv (after Pbkdf2 w)).
Proof.
  intros HD Hthis Hne Hdec Hlen.
  pose proof (constructor_iv _ _ _ Hthis) as Hiv.
  pose proof (decrypt_block crypto this token username encrypted w Hiv Hdec
                Hlen (HD _ _ Hlen)) as Hrun.
  destruct (buffer_to_timestamp_block _ [] (HD (derived_key crypto this username)
                                              _ Hlen))
    as (timestamp & _ & Hts).
  rewrite Hts in Hrun.
  rewrite (isValid_run _ _ _ _ _ _ _ Hne Hrun). eexists. reflexivity.
Qed.

Lemma isValid_one_block_witness :
  (forall key block,
      List.length block = 8%nat ->
      List.length (Crypto.bf_decrypt null_crypto key block) = 8%nat)
  /\ EasyNoPassword.constructor "shh-this-is-our-secret" Js.Undefined
     = Returned readme_instance
  /\ "alice"%string <> ""%string
  /\ Base62.decode "LygHa16AHYF" = Some (repeat xff 8)
  /\ List.length (repeat xff 8) = 8%nat
  /\ exists valid : bool,
      EasyNoPassword.isValid null_crypto readme_instance "LygHa16AHYF" "alice"
        (World 1762000000000 [])
      = (Returned valid,
         after CreateDecipheriv (after Pbkdf2 (World 1762000000000 []))).
Proof.
  split; [intros key block H; exact H|]. split; [reflexivity|].
  split; [discriminate|]. split; [vm_compute; reflexivity|].
  split; [reflexivity|].
  apply (isValid_one_block null_crypto "shh-this-is-our-secret" Js.Undefined
           readme_instance "LygHa16AHYF" "alice" (repeat xff 8)
           (World 1762000000000 [])).
  - intros key block H. exact H.
  - reflexivity.
  - discriminate.
  - vm_compute. reflexivity.
  - reflexivity.
Defined.

(** ** Reads that do not fit *)

Example readUInt32BE_short_buffer :
  Buffer.readUInt32BE [] 0 = Thrown BufferOutOfBounds
  /\ Buffer.readUInt32BE (Buffer.alloc 6) 4 = Thrown OutOfRange
  /\ Buffer.readUInt32BE (Buffer.alloc 8) 4 = Returned 0.
Proof. repeat split; reflexivity. Qed.
